(** * blogd: a shallow embedding of the blog backend's views and serializers

    The development follows [src/blogd/views.py] and
    [src/blogd/serializers.py].  The persistent store is an explicit value
    [DB] (one list of rows per table, rows in insertion order), and a view
    is a state-passing function that returns the store together with
    either an exception or a value.

    The Django REST framework calls that the views rely on are written out
    by their contract: a permission class answers [has_permission],
    [check_permissions] refuses at the first class that says no,
    the lookup of [get_object] is by the primary key of the URL,
    [get_object_or_404] and [objects.get] are the single-row lookups,
    [order_by] is a stable sort and a slice is a prefix.  A view's
    [self.get_object()] is the lookup followed by
    [check_object_permissions], which asks the view's [get_permissions]
    again.  The module [rest_framework.permissions] has no name
    [PermissionDenied], so a view that evaluates
    [permissions.PermissionDenied] raises [AttributeError].  Rows follow
    the data model of the specification, since [models.py] is not among
    the sources. *)

From Stdlib Require Import String Ascii.
From Stdlib Require Import List ZArith Bool Arith Lia.
From Stdlib Require Import Sorting.Sorted Sorting.Permutation.
Import ListNotations.

Set Implicit Arguments.

Local Open Scope string_scope.
Local Open Scope list_scope.
Local Open Scope nat_scope.

(** ** Data model *)

(** Modelled from the spec: [models.py] is not among the sources.  A user
    account as the views and [UserSerializer] read it: primary key,
    unique username, names, email, credential and the staff flag. *)
Record User := mkUser {
  user_id : nat;
  username : string;
  first_name : string;
  last_name : string;
  email : string;
  password : string;
  is_staff : bool
}.

(** Modelled from the spec: the one-to-one profile row of [models.py],
    keyed by the user's primary key and holding [is_blog_admin]. *)
Record UserProfile := mkProfile {
  profile_user : nat;
  is_blog_admin : bool
}.

(** Modelled from the spec: a category row of [models.py] (id and name). *)
Record BlogCategory := mkCategory {
  category_id : nat;
  category_name : string
}.

(** Modelled from the spec: a post row of [models.py].  Timestamps are
    microseconds on the integer line; [published_date] and [category] are
    nullable. *)
Record BlogPost := mkPost {
  post_id : nat;
  title : string;
  content : string;
  author : nat;
  category : option nat;
  created_at : Z;
  updated_at : Z;
  published : bool;
  published_date : option Z;
  featured_image : option string;
  slug : string
}.

(** Modelled from the spec: a comment row of [models.py]. *)
Record Comment := mkComment {
  comment_id : nat;
  comment_post : nat;
  comment_author : nat;
  comment_content : string;
  comment_created_at : Z;
  approved : bool
}.

(** Modelled from the spec: a like row of [models.py]. *)
Record Like := mkLike {
  like_id : nat;
  like_post : nat;
  like_user : nat;
  like_created_at : Z
}.

(** The persistent store: one table per model. *)
Record DB := mkDB {
  users : list User;
  profiles : list UserProfile;
  categories : list BlogCategory;
  posts : list BlogPost;
  comments : list Comment;
  likes : list Like
}.

Definition empty_db : DB := mkDB [] [] [] [] [] [].

Definition set_users (f : list User -> list User) (db : DB) : DB :=
  mkDB (f (users db)) (profiles db) (categories db) (posts db) (comments db) (likes db).
Definition set_profiles (f : list UserProfile -> list UserProfile) (db : DB) : DB :=
  mkDB (users db) (f (profiles db)) (categories db) (posts db) (comments db) (likes db).
Definition set_categories (f : list BlogCategory -> list BlogCategory) (db : DB) : DB :=
  mkDB (users db) (profiles db) (f (categories db)) (posts db) (comments db) (likes db).
Definition set_posts (f : list BlogPost -> list BlogPost) (db : DB) : DB :=
  mkDB (users db) (profiles db) (categories db) (f (posts db)) (comments db) (likes db).
Definition set_comments (f : list Comment -> list Comment) (db : DB) : DB :=
  mkDB (users db) (profiles db) (categories db) (posts db) (f (comments db)) (likes db).
Definition set_likes (f : list Like -> list Like) (db : DB) : DB :=
  mkDB (users db) (profiles db) (categories db) (posts db) (comments db) (f (likes db)).

(** ** Requests *)

(** [request.user]: Django's [AnonymousUser] or the authenticated row. *)
Inductive RequestUser :=
| AnonymousUser
| AuthUser (u : User).

Definition is_authenticated (ru : RequestUser) : bool :=
  match ru with
  | AnonymousUser => false
  | AuthUser _ => true
  end.

Inductive Method := GET | POST | PUT | PATCH | DELETE.

Definition is_write_method (m : Method) : bool :=
  match m with
  | PUT | PATCH | DELETE => true
  | _ => false
  end.

(** ** Exceptions and their HTTP status *)

(** What a view can raise.  The first four are the framework's API
    exceptions; the others are not caught by the framework and end the
    request with a server error. *)
Inductive exn :=
| ValidationError (detail : string)
| NotAuthenticated
| PermissionDenied (detail : string)
| Http404
| DoesNotExist
| MultipleObjectsReturned
| TypeError
| ValueError
| AttributeError
| RecursionError.

Definition status_code (e : exn) : nat :=
  match e with
  | ValidationError _ => 400
  | NotAuthenticated => 401
  | PermissionDenied _ => 403
  | Http404 => 404
  | DoesNotExist | MultipleObjectsReturned | TypeError | ValueError
  | AttributeError | RecursionError => 500
  end.

(** The error taxonomy of the specification and the status each class is
    bound to at the API boundary. *)
Inductive ApiError :=
| ApiValidationError
| ApiAuthenticationError
| ApiPermissionError
| ApiNotFoundError
| ApiConflictError.

Definition api_error_of_status (s : nat) : option ApiError :=
  match s with
  | 400 => Some ApiValidationError
  | 401 => Some ApiAuthenticationError
  | 403 => Some ApiPermissionError
  | 404 => Some ApiNotFoundError
  | 409 => Some ApiConflictError
  | _ => None
  end.

Definition api_error (e : exn) : option ApiError :=
  api_error_of_status (status_code e).

(** ** The view monad: state passing with exceptions *)

Definition View (A : Type) : Type := DB -> DB * (exn + A).

Definition ret {A} (a : A) : View A := fun db => (db, inr a).

Definition raise {A} (e : exn) : View A := fun db => (db, inl e).

Definition bind {A B} (c : View A) (k : A -> View B) : View B :=
  fun db =>
    match c db with
    | (db', inl e) => (db', inl e)
    | (db', inr a) => k a db'
    end.

Definition read {A} (q : DB -> A) : View A := fun db => (db, inr (q db)).

Definition write (f : DB -> DB) : View unit := fun db => (f db, inr tt).

Definition lift {A} (r : exn + A) : View A := fun db => (db, r).

Declare Scope view_scope.
Delimit Scope view_scope with view.
Notation "x <- c ;; k" := (bind c (fun x => k))
  (at level 100, c at next level, right associativity) : view_scope.
Notation "c ;;; k" := (bind c (fun _ => k))
  (at level 100, right associativity) : view_scope.

(** The exception a finished request carries, if any. *)
Definition raised {A} (r : DB * (exn + A)) : option exn :=
  match snd r with
  | inl e => Some e
  | inr _ => None
  end.

Definition succeeded {A} (r : DB * (exn + A)) : bool :=
  match snd r with
  | inl _ => false
  | inr _ => true
  end.

(** The taxonomy class of a finished request's failure, if it failed with
    one. *)
Definition failure_class {A} (r : DB * (exn + A)) : option ApiError :=
  match raised r with
  | Some e => api_error e
  | None => None
  end.

(** ** The object manager *)

(** [Model.objects.get(...)]: the single row that satisfies the lookup. *)
Definition objects_get {A} (lookup : A -> bool) (rows : list A) : exn + A :=
  match filter lookup rows with
  | [] => inl DoesNotExist
  | [x] => inr x
  | _ :: _ :: _ => inl MultipleObjectsReturned
  end.

(** [get_object_or_404]: [objects.get] with [DoesNotExist] turned into
    [Http404]. *)
Definition get_object_or_404 {A} (lookup : A -> bool) (rows : list A) : exn + A :=
  match objects_get lookup rows with
  | inl DoesNotExist => inl Http404
  | r => r
  end.

(** [queryset.exists()] and [queryset.count()] after a [filter]. *)
Definition exists_ {A} (lookup : A -> bool) (rows : list A) : bool :=
  match filter lookup rows with
  | [] => false
  | _ :: _ => true
  end.

Definition count {A} (lookup : A -> bool) (rows : list A) : nat :=
  length (filter lookup rows).

(** The primary key given to a new row.  The database allocates it; here
    it is one more than the largest key in use, and the properties below
    rely only on its not being in use ([next_pk_fresh]). *)
Definition next_pk (pks : list nat) : nat := S (fold_right Nat.max 0 pks).

(** [order_by] as a stable insertion sort; [before a b] says that [a] may
    stand in front of [b]. *)
Fixpoint insert_by {A} (before : A -> A -> bool) (x : A) (l : list A) : list A :=
  match l with
  | [] => [x]
  | y :: l' => if before x y then x :: l else y :: insert_by before x l'
  end.

Definition order_by {A} (before : A -> A -> bool) (l : list A) : list A :=
  fold_right (insert_by before) [] l.

(** Descending order on a non-null timestamp column. *)
Definition desc_Z {A} (key : A -> Z) (a b : A) : bool := (key b <=? key a)%Z.

(** Descending order on a nullable timestamp column.  Where the NULLs go is
    the database backend's choice, taken as [nulls_first]. *)
Definition desc_opt (nulls_first : bool) (x y : option Z) : bool :=
  match x, y with
  | Some a, Some b => (b <=? a)%Z
  | None, None => true
  | None, Some _ => nulls_first
  | Some _, None => negb nulls_first
  end.

(** ** Permission classes *)

Inductive Permission := AllowAny | IsAuthenticated | IsAdminUser.

(** [has_permission] of the three framework classes the views name:
    [IsAdminUser] reads the user's [is_staff]. *)
Definition has_permission (p : Permission) (ru : RequestUser) : bool :=
  match p with
  | AllowAny => true
  | IsAuthenticated => is_authenticated ru
  | IsAdminUser =>
      match ru with
      | AnonymousUser => false
      | AuthUser u => is_staff u
      end
  end.

Definition default_denied : string := "You do not have permission to perform this action.".

(** [APIView.check_permissions]: the first class that refuses ends the
    request, with 401 for an anonymous caller and 403 otherwise. *)
Fixpoint check_permissions (ps : list Permission) (ru : RequestUser) : exn + unit :=
  match ps with
  | [] => inr tt
  | p :: ps' =>
      if has_permission p ru then check_permissions ps' ru
      else inl (if is_authenticated ru then PermissionDenied default_denied
                else NotAuthenticated)
  end.

(** [UserProfile.objects.get(user=request.user)].  An [AnonymousUser] is
    not a row and the lookup raises [TypeError]. *)
Definition get_profile (db : DB) (ru : RequestUser) : exn + UserProfile :=
  match ru with
  | AnonymousUser => inl TypeError
  | AuthUser u => objects_get (fun p => profile_user p =? user_id u) (profiles db)
  end.

Definition query {A} (q : DB -> exn + A) : View A := fun db => (db, q db).

(** [obj.author != request.user] and the like: a row's user reference
    against the requesting user. *)
Definition same_user (ru : RequestUser) (uid : nat) : bool :=
  match ru with
  | AnonymousUser => false
  | AuthUser u => user_id u =? uid
  end.

Definition dflt {A} (o : option A) (d : A) : A :=
  match o with
  | Some a => a
  | None => d
  end.

(** Python truthiness of an optional query parameter: absent and empty are
    both false. *)
Definition truthy (o : option string) : option string :=
  match o with
  | Some EmptyString => None
  | _ => o
  end.

(** ** Case-insensitive containment ([__icontains]) *)

Definition lower_ascii (c : ascii) : ascii :=
  let n := nat_of_ascii c in
  if (65 <=? n) && (n <=? 90) then ascii_of_nat (n + 32) else c.

Fixpoint lower (s : string) : string :=
  match s with
  | EmptyString => EmptyString
  | String c s' => String (lower_ascii c) (lower s')
  end.

Fixpoint contains (needle hay : string) : bool :=
  String.prefix needle hay ||
  match hay with
  | EmptyString => false
  | String _ hay' => contains needle hay'
  end.

Definition icontains (field term : string) : bool :=
  contains (lower term) (lower field).

(** ** Serializers (serializers.py) *)

(** [BlogPostSerializer.get_comments_count] (serializers.py, line 36). *)
Definition get_comments_count (db : DB) (obj : BlogPost) : nat :=
  count (fun c => (comment_post c =? post_id obj) && approved c) (comments db).

(** [BlogPostSerializer.get_likes_count] (serializers.py, line 39). *)
Definition get_likes_count (db : DB) (obj : BlogPost) : nat :=
  count (fun l => like_post l =? post_id obj) (likes db).

(** [BlogPostSerializer.get_is_liked] (serializers.py, line 42); [request]
    is the serializer context's entry, which may be missing. *)
Definition get_is_liked (request : option RequestUser) (db : DB) (obj : BlogPost) : bool :=
  match request with
  | Some (AuthUser u) =>
      exists_ (fun l => (like_post l =? post_id obj) && (like_user l =? user_id u))
              (likes db)
  | _ => false
  end.

(** What [BlogPostSerializer] renders for a post: the row and the three
    method fields. *)
Record PostRepr := mkPostRepr {
  repr_post : BlogPost;
  comments_count : nat;
  likes_count : nat;
  is_liked : bool
}.

Definition BlogPostSerializer_data (request : option RequestUser) (db : DB)
    (obj : BlogPost) : PostRepr :=
  mkPostRepr obj (get_comments_count db obj) (get_likes_count db obj)
             (get_is_liked request db obj).

(** The writable fields of [BlogPostSerializer] after validation
    ([author] and [category] are read-only); an absent key is [None]. *)
Record PostData := mkPostData {
  pd_title : option string;
  pd_content : option string;
  pd_published : option bool;
  pd_published_date : option (option Z);
  pd_featured_image : option (option string);
  pd_slug : option string
}.

Definition apply_post_data (d : PostData) (now : Z) (p : BlogPost) : BlogPost :=
  mkPost (post_id p)
         (dflt (pd_title d) (title p))
         (dflt (pd_content d) (content p))
         (author p)
         (category p)
         (created_at p)
         now
         (dflt (pd_published d) (published p))
         (dflt (pd_published_date d) (published_date p))
         (dflt (pd_featured_image d) (featured_image p))
         (dflt (pd_slug d) (slug p)).

(** The body of a comment request as the client sends it: every field of
    [CommentSerializer.Meta.fields] may be present. *)
Record CommentBody := mkCommentBody {
  cb_post : option nat;
  cb_author : option nat;
  cb_content : option string;
  cb_created_at : option Z;
  cb_approved : option bool
}.

(** [validated_data] of [CommentSerializer]: the fields that are not
    read-only, that is [content] and [approved]. *)
Record CommentData := mkCommentData {
  cd_content : option string;
  cd_approved : option bool
}.

(** [CommentSerializer.is_valid] (serializers.py, lines 48-54): [post],
    [author] and [created_at] are dropped as read-only, [content] is
    required unless the update is partial. *)
Definition CommentSerializer_validate (partial : bool) (b : CommentBody)
    : exn + CommentData :=
  match cb_content b with
  | None =>
      if partial then inr (mkCommentData None (cb_approved b))
      else inl (ValidationError "content: This field is required.")
  | Some c => inr (mkCommentData (Some c) (cb_approved b))
  end.

Definition apply_comment_data (d : CommentData) (c : Comment) : Comment :=
  mkComment (comment_id c) (comment_post c) (comment_author c)
            (dflt (cd_content d) (comment_content c))
            (comment_created_at c)
            (dflt (cd_approved d) (approved c)).

(** The body of a registration request. *)
Record RegisterData := mkRegisterData {
  rd_username : option string;
  rd_password : option string;
  rd_email : option string;
  rd_first_name : option string;
  rd_last_name : option string;
  rd_is_blog_admin : option bool
}.

Definition required (name : string) (v : option string) : list (string * string) :=
  match v with
  | None => [(name, "This field is required.")]
  | Some _ => []
  end.

(** The uniqueness validator that the serializer derives from the unique
    [username] column. *)
Definition username_taken (db : DB) (v : option string) : list (string * string) :=
  match v with
  | Some n =>
      if exists_ (fun u => String.eqb (username u) n) (users db)
      then [("username", "A user with that username already exists.")]
      else []
  | None => []
  end.

(** ** Views (views.py) *)

Local Open Scope view_scope.

Section Views.

(** What the sources leave to the database backend and to the framework's
    model layer: where NULLs sort in a descending order, how a query
    parameter is converted for an integer lookup, the errors of the
    validators derived from the [User] columns (length, format, blank),
    and the detail of the first validator derived from the [BlogPost]
    columns that a post body fails, if any, for a partial or a full
    update. *)
Variable nulls_first : bool.
Variable int_of_param : string -> option nat.
Variable column_errors : RegisterData -> list (string * string).
Variable post_invalid : bool -> PostData -> option string.

(** *** Registration (views.py, lines 20-32; serializers.py, lines 62-94) *)

(** [serializer.errors] after [is_valid]. *)
Definition UserRegisterSerializer_errors (db : DB) (d : RegisterData)
    : list (string * string) :=
  required "username" (rd_username d) ++ username_taken db (rd_username d) ++
  required "password" (rd_password d) ++
  required "email" (rd_email d) ++
  required "first_name" (rd_first_name d) ++
  required "last_name" (rd_last_name d) ++
  column_errors d.

(** [UserRegisterSerializer.create]: [create_user] and the profile row.
    A missing key of [validated_data] is a [KeyError] in the source; the
    view only calls [create] on valid data, where every key is present. *)
Definition UserRegisterSerializer_create (d : RegisterData) : View User :=
  let is_blog_admin := dflt (rd_is_blog_admin d) false in
  us <- read users ;;
  let user := mkUser (next_pk (map user_id us))
                     (dflt (rd_username d) "") (dflt (rd_first_name d) "")
                     (dflt (rd_last_name d) "") (dflt (rd_email d) "")
                     (dflt (rd_password d) "") false in
  write (set_users (fun l => l ++ [user])) ;;;
  write (set_profiles (fun l => l ++ [mkProfile (user_id user) is_blog_admin])) ;;;
  ret user.

(** The response of the registration view: 201 with the user, or 400 with
    the serializer's errors. *)
Inductive RegisterResponse :=
| RegisterCreated (user : User)
| RegisterRejected (errors : list (string * string)).

Definition register_status (r : RegisterResponse) : nat :=
  match r with
  | RegisterCreated _ => 201
  | RegisterRejected _ => 400
  end.

(** [UserRegisterView.post]. *)
Definition UserRegisterView_post (d : RegisterData) : View RegisterResponse :=
  errors <- read (fun db => UserRegisterSerializer_errors db d) ;;
  match errors with
  | [] =>
      user <- UserRegisterSerializer_create d ;;
      ret (RegisterCreated user)
  | _ :: _ => ret (RegisterRejected errors)
  end.

(** *** Categories (views.py, lines 89-107) *)

(** [BlogCategoryListView.get_permissions]. *)
Definition BlogCategoryListView_get_permissions (m : Method) : list Permission :=
  match m with
  | POST => [IsAuthenticated; IsAdminUser]
  | _ => [IsAuthenticated]
  end.

(** [POST categories/]: the permission check, then the generic create. *)
Definition BlogCategoryListView_post (ru : RequestUser) (name : string)
    : View BlogCategory :=
  lift (check_permissions (BlogCategoryListView_get_permissions POST) ru) ;;;
  cats <- read categories ;;
  let c := mkCategory (next_pk (map category_id cats)) name in
  write (set_categories (fun l => l ++ [c])) ;;;
  ret c.





(** *** Posts (views.py, lines 110-177) *)

Record QueryParams := mkQueryParams {
  qp_category : option string;
  qp_search : option string
}.

Definition by_published_date (a b : BlogPost) : bool :=
  desc_opt nulls_first (published_date a) (published_date b).

(** [author__username]: the join of a post with its author's row. *)
Definition author_username (db : DB) (p : BlogPost) : option string :=
  option_map username (find (fun u => user_id u =? author p) (users db)).

(** The three-way [Q] disjunction of the search; the join on the author
    keeps no post whose author row is missing. *)
Definition search_matches (db : DB) (search : string) (p : BlogPost) : bool :=
  match author_username db p with
  | Some name =>
      icontains (title p) search || icontains (content p) search ||
      icontains name search
  | None => false
  end.

Definition in_category (cid : nat) (p : BlogPost) : bool :=
  match category p with
  | Some c => c =? cid
  | None => false
  end.

(** [BlogPostListView.get_queryset]. *)
Definition BlogPostListView_get_queryset (qp : QueryParams) (db : DB)
    : exn + list BlogPost :=
  let queryset := order_by by_published_date (filter published (posts db)) in
  match
    match truthy (qp_category qp) with
    | Some category_id =>
        match int_of_param category_id with
        | Some cid => inr (filter (in_category cid) queryset)
        | None => inl ValueError
        end
    | None => inr queryset
    end
  with
  | inl e => inl e
  | inr queryset =>
      match truthy (qp_search qp) with
      | Some search => inr (filter (search_matches db search) queryset)
      | None => inr queryset
      end
  end.

(** [BlogPostListView.perform_create]; the new row takes the validated
    fields over an empty draft.  The refusal evaluates
    [permissions.PermissionDenied], which is an [AttributeError]. *)
Definition BlogPostListView_perform_create (ru : RequestUser) (d : PostData)
    (now : Z) : View BlogPost :=
  profile <- query (fun db => get_profile db ru) ;;
  if negb (is_blog_admin profile) then
    raise AttributeError
  else
    match ru with
    | AnonymousUser => raise ValueError
    | AuthUser u =>
        ps <- read posts ;;
        let draft := mkPost (next_pk (map post_id ps)) "" "" (user_id u) None
                            now now false None None "" in
        let p := apply_post_data d now draft in
        write (set_posts (fun l => l ++ [p])) ;;;
        ret p
    end.

(** [serializer.is_valid(raise_exception=True)] of [BlogPostSerializer]
    on the writable fields of a body. *)
Definition BlogPostSerializer_validate (partial : bool) (d : PostData)
    : exn + PostData :=
  match post_invalid partial d with
  | Some detail => inl (ValidationError detail)
  | None => inr d
  end.

(** [POST posts/]: the view's [permission_classes], the validation of the
    body, then [perform_create]. *)
Definition BlogPostListView_post (ru : RequestUser) (d : PostData) (now : Z)
    : View BlogPost :=
  lift (check_permissions [IsAuthenticated] ru) ;;;
  d <- lift (BlogPostSerializer_validate false d) ;;
  BlogPostListView_perform_create ru d now.

Definition post_get_object (pk : nat) : View BlogPost :=
  query (fun db => get_object_or_404 (fun p => post_id p =? pk) (posts db)).

(** [BlogPostDetailView.get_permissions].  Its [self.get_object()] looks
    the post up and runs [check_object_permissions], which asks
    [get_permissions] for the classes again (each of them then grants the
    object); [limit] is the depth of nested calls the interpreter still
    allows.  The refusal evaluates [permissions.PermissionDenied], which
    is an [AttributeError]. *)
Fixpoint BlogPostDetailView_get_permissions (limit : nat) (m : Method)
    (ru : RequestUser) (pk : nat) {struct limit} : View (list Permission) :=
  if is_write_method m then
    obj <- (obj <- post_get_object pk ;;
            (match limit with
             | 0 => raise RecursionError
             | S limit' => BlogPostDetailView_get_permissions limit' m ru pk
             end) ;;;
            ret obj) ;;
    profile <- query (fun db => get_profile db ru) ;;
    if negb (same_user ru (author obj)) && negb (is_blog_admin profile) then
      raise AttributeError
    else ret [IsAuthenticated]
  else ret [IsAuthenticated].

(** [self.get_object()] of [BlogPostDetailView], as its handlers call
    it. *)
Definition BlogPostDetailView_get_object (limit : nat) (m : Method)
    (ru : RequestUser) (pk : nat) : View BlogPost :=
  obj <- post_get_object pk ;;
  (match limit with
   | 0 => raise RecursionError
   | S limit' => BlogPostDetailView_get_permissions limit' m ru pk
   end) ;;;
  ret obj.

Definition BlogPostDetailView_initial (limit : nat) (m : Method) (ru : RequestUser)
    (pk : nat) : View unit :=
  perms <- BlogPostDetailView_get_permissions limit m ru pk ;;
  lift (check_permissions perms ru).

(** [PUT]/[PATCH posts/<pk>/]: the generic update behind the permission
    check: the object, the validation of the body, the save. *)
Definition BlogPostDetailView_update (limit : nat) (m : Method) (ru : RequestUser)
    (pk : nat) (d : PostData) (now : Z) : View BlogPost :=
  BlogPostDetailView_initial limit m ru pk ;;;
  obj <- BlogPostDetailView_get_object limit m ru pk ;;
  d <- lift (BlogPostSerializer_validate (match m with PATCH => true | _ => false end) d) ;;
  let p := apply_post_data d now obj in
  write (set_posts (map (fun x => if post_id x =? post_id obj then p else x))) ;;;
  ret p.

(** [DELETE posts/<pk>/]: the generic destroy behind the permission check;
    the post's comments and likes go with it, by the cascade that the
    specification's data model gives their references. *)
Definition BlogPostDetailView_destroy (limit : nat) (ru : RequestUser) (pk : nat)
    : View unit :=
  BlogPostDetailView_initial limit DELETE ru pk ;;;
  obj <- BlogPostDetailView_get_object limit DELETE ru pk ;;
  write (set_comments (filter (fun c => negb (comment_post c =? post_id obj)))) ;;;
  write (set_likes (filter (fun l => negb (like_post l =? post_id obj)))) ;;;
  write (set_posts (filter (fun x => negb (post_id x =? post_id obj)))).

(** [timedelta(days=30)] in microseconds. *)
Definition thirty_days : Z := (30 * 86400 * 1000000)%Z.

Definition published_since (t : Z) (p : BlogPost) : bool :=
  published p &&
  match published_date p with
  | Some d => (t <=? d)%Z
  | None => false
  end.

(** [LatestBlogPostsView.get_queryset]; [now] is [timezone.now()]. *)
Definition LatestBlogPostsView_get_queryset (now : Z) (db : DB) : list BlogPost :=
  let thirty_days_ago := (now - thirty_days)%Z in
  firstn 5 (order_by by_published_date
                     (filter (published_since thirty_days_ago) (posts db))).

(** [AdminBlogPostsView.get_queryset]; the refusal evaluates
    [permissions.PermissionDenied], which is an [AttributeError]. *)
Definition AdminBlogPostsView_get_queryset (ru : RequestUser) (db : DB)
    : exn + list BlogPost :=
  match get_profile db ru with
  | inl e => inl e
  | inr profile =>
      if negb (is_blog_admin profile) then
        inl AttributeError
      else
        inr (order_by (desc_Z created_at)
                      (filter (fun p => same_user ru (author p)) (posts db)))
  end.

(** [GET posts/admin/]. *)
Definition AdminBlogPostsView_get (ru : RequestUser) : View (list PostRepr) :=
  lift (check_permissions [IsAuthenticated] ru) ;;;
  qs <- query (AdminBlogPostsView_get_queryset ru) ;;
  read (fun db => map (BlogPostSerializer_data (Some ru) db) qs).

(** *** Comments (views.py, lines 180-220) *)

(** [CommentListView.get_queryset]. *)
Definition CommentListView_get_queryset (pid : nat) (db : DB) : list Comment :=
  order_by (desc_Z comment_created_at)
           (filter (fun c => (comment_post c =? pid) && approved c) (comments db)).

(** [GET posts/<post_id>/comments/]. *)
Definition CommentListView_get (ru : RequestUser) (pid : nat)
    : View (list Comment) :=
  lift (check_permissions [IsAuthenticated] ru) ;;;
  read (CommentListView_get_queryset pid).

(** [CommentListView.perform_create]: [serializer.save(author=..., post=...)]
    on the validated data; [approved] falls back to the column default. *)
Definition CommentListView_perform_create (ru : RequestUser) (pid : nat)
    (d : CommentData) (now : Z) : View Comment :=
  post <- post_get_object pid ;;
  match ru with
  | AnonymousUser => raise ValueError
  | AuthUser u =>
      cs <- read comments ;;
      let blank := mkComment (next_pk (map comment_id cs)) (post_id post)
                             (user_id u) "" now false in
      let c := apply_comment_data d blank in
      write (set_comments (fun l => l ++ [c])) ;;;
      ret c
  end.

(** [POST posts/<post_id>/comments/]: permission check, validation of the
    request body, [perform_create]. *)
Definition CommentListView_post (ru : RequestUser) (pid : nat) (body : CommentBody)
    (now : Z) : View Comment :=
  lift (check_permissions [IsAuthenticated] ru) ;;;
  d <- lift (CommentSerializer_validate false body) ;;
  CommentListView_perform_create ru pid d now.

Definition comment_get_object (pk : nat) : View Comment :=
  query (fun db => get_object_or_404 (fun c => comment_id c =? pk) (comments db)).

(** [CommentDetailView.get_permissions]: [self.get_object()] comes first,
    for every method, and asks [get_permissions] again as in the post
    view; the refusal is an [AttributeError] as there. *)
Fixpoint CommentDetailView_get_permissions (limit : nat) (m : Method)
    (ru : RequestUser) (pk : nat) {struct limit} : View (list Permission) :=
  obj <- (obj <- comment_get_object pk ;;
          (match limit with
           | 0 => raise RecursionError
           | S limit' => CommentDetailView_get_permissions limit' m ru pk
           end) ;;;
          ret obj) ;;
  if is_write_method m then
    profile <- query (fun db => get_profile db ru) ;;
    if negb (same_user ru (comment_author obj)) && negb (is_blog_admin profile) then
      raise AttributeError
    else ret [IsAuthenticated]
  else ret [IsAuthenticated].

(** [self.get_object()] of [CommentDetailView], as its handlers call
    it. *)
Definition CommentDetailView_get_object (limit : nat) (m : Method)
    (ru : RequestUser) (pk : nat) : View Comment :=
  obj <- comment_get_object pk ;;
  (match limit with
   | 0 => raise RecursionError
   | S limit' => CommentDetailView_get_permissions limit' m ru pk
   end) ;;;
  ret obj.

Definition CommentDetailView_initial (limit : nat) (m : Method) (ru : RequestUser)
    (pk : nat) : View unit :=
  perms <- CommentDetailView_get_permissions limit m ru pk ;;
  lift (check_permissions perms ru).

(** [PUT]/[PATCH comments/<pk>/]. *)
Definition CommentDetailView_update (limit : nat) (m : Method) (ru : RequestUser)
    (pk : nat) (body : CommentBody) : View Comment :=
  CommentDetailView_initial limit m ru pk ;;;
  obj <- CommentDetailView_get_object limit m ru pk ;;
  d <- lift (CommentSerializer_validate (match m with PATCH => true | _ => false end) body) ;;
  let c := apply_comment_data d obj in
  write (set_comments (map (fun x => if comment_id x =? comment_id obj then c else x))) ;;;
  ret c.

(** [DELETE comments/<pk>/]. *)
Definition CommentDetailView_destroy (limit : nat) (ru : RequestUser) (pk : nat)
    : View unit :=
  CommentDetailView_initial limit DELETE ru pk ;;;
  obj <- CommentDetailView_get_object limit DELETE ru pk ;;
  write (set_comments (filter (fun x => negb (comment_id x =? comment_id obj)))).

Definition set_approved (c : Comment) : Comment :=
  mkComment (comment_id c) (comment_post c) (comment_author c) (comment_content c)
            (comment_created_at c) true.

(** [ApproveCommentView.patch]; the value is the response's [status]
    entry.  The refusal evaluates [permissions.PermissionDenied], which is
    an [AttributeError]; the view does not override [get_permissions], so
    its [get_object] is the lookup behind classes that grant every
    object. *)
Definition ApproveCommentView_patch (ru : RequestUser) (pk : nat) : View string :=
  profile <- query (fun db => get_profile db ru) ;;
  if negb (is_blog_admin profile) then
    raise AttributeError
  else
    comment <- comment_get_object pk ;;
    let comment := set_approved comment in
    write (set_comments (map (fun x => if comment_id x =? comment_id comment
                                       then comment else x))) ;;;
    ret "comment approved".

(** [PATCH comments/<pk>/approve/] behind the view's
    [permission_classes]. *)
Definition ApproveCommentView_dispatch (ru : RequestUser) (pk : nat) : View string :=
  lift (check_permissions [IsAuthenticated] ru) ;;;
  ApproveCommentView_patch ru pk.

(** [PUT comments/<pk>/approve/]: the view overrides [patch] only, so
    [put] is the generic update that [UpdateAPIView] provides, behind the
    view's [permission_classes] and nothing else. *)
Definition ApproveCommentView_put (ru : RequestUser) (pk : nat) (body : CommentBody)
    : View Comment :=
  lift (check_permissions [IsAuthenticated] ru) ;;;
  obj <- comment_get_object pk ;;
  d <- lift (CommentSerializer_validate false body) ;;
  let c := apply_comment_data d obj in
  write (set_comments (map (fun x => if comment_id x =? comment_id obj then c else x))) ;;;
  ret c.

(** *** Likes (views.py, lines 223-240) *)

Definition like_of (pid : nat) (ru : RequestUser) (l : Like) : bool :=
  (like_post l =? pid) && same_user ru (like_user l).

(** [Like.objects.filter(post=post, user=request.user)]; an
    [AnonymousUser] is not a lookup value. *)
Definition likes_filter (ru : RequestUser) (pid : nat) (db : DB) : exn + list Like :=
  match ru with
  | AnonymousUser => inl TypeError
  | AuthUser _ => inr (filter (like_of pid ru) (likes db))
  end.

(** [LikeCreateView.perform_create]. *)
Definition LikeCreateView_perform_create (ru : RequestUser) (pid : nat) (now : Z)
    : View Like :=
  post <- post_get_object pid ;;
  existing <- query (likes_filter ru (post_id post)) ;;
  match existing with
  | _ :: _ => raise (ValidationError "You already liked this post")
  | [] =>
      match ru with
      | AnonymousUser => raise ValueError
      | AuthUser u =>
          ls <- read likes ;;
          let l := mkLike (next_pk (map like_id ls)) (post_id post) (user_id u) now in
          write (set_likes (fun rows => rows ++ [l])) ;;;
          ret l
      end
  end.

(** [POST posts/<post_id>/like/]. *)
Definition LikeCreateView_post (ru : RequestUser) (pid : nat) (now : Z) : View Like :=
  lift (check_permissions [IsAuthenticated] ru) ;;;
  LikeCreateView_perform_create ru pid now.

(** [LikeDeleteView.get_object]. *)
Definition LikeDeleteView_get_object (ru : RequestUser) (pid : nat) : View Like :=
  post <- post_get_object pid ;;
  match ru with
  | AnonymousUser => raise TypeError
  | AuthUser _ =>
      query (fun db => get_object_or_404 (like_of (post_id post) ru) (likes db))
  end.

(** [DELETE posts/<post_id>/unlike/]: [get_object], then the row with
    that primary key is deleted. *)
Definition LikeDeleteView_delete (ru : RequestUser) (pid : nat) : View unit :=
  lift (check_permissions [IsAuthenticated] ru) ;;;
  instance <- LikeDeleteView_get_object ru pid ;;
  write (set_likes (filter (fun l => negb (like_id l =? like_id instance)))).

End Views.

(** ** Outcomes named by the specification *)

(** A request refused with the permission class of the taxonomy, the
    store left as it was. *)
Definition denied {A} (db : DB) (r : DB * (exn + A)) : Prop :=
  fst r = db /\ failure_class r = Some ApiPermissionError.


(** The taxonomy class of a registration response, by its status. *)
Definition response_class (r : RegisterResponse) : option ApiError :=
  api_error_of_status (register_status r).

(** [term] occurs in [field] once both are put in lower case. *)
Definition occurs_ci (term field : string) : Prop :=
  exists pre post, lower field = (pre ++ lower term ++ post)%string.

(** The category filter a request supplies: none when the parameter is
    absent or empty, the converted identifier otherwise. *)
Definition category_supplied (int_of_param : string -> option nat)
    (qp : QueryParams) (cat : option nat) : Prop :=
  match truthy (qp_category qp) with
  | Some s => int_of_param s = cat /\ cat <> None
  | None => cat = None
  end.

(** ** Store invariants *)

(** The like table's keys: primary keys are distinct and a (post, user)
    pair is stored at most once. *)
Definition likes_wf (db : DB) : Prop :=
  NoDup (map like_id (likes db)) /\
  forall pid uid,
    count (fun l => (like_post l =? pid) && (uid =? like_user l)) (likes db) <= 1.

(** Every profile row belongs to a stored user. *)
Definition profiles_wf (db : DB) : Prop :=
  forall p, In p (profiles db) -> In (profile_user p) (map user_id (users db)).

(** Every post's author is a stored user. *)
Definition authors_wf (db : DB) : Prop :=
  forall p, In p (posts db) -> In (author p) (map user_id (users db)).

(** No two stored users share a primary key. *)
Definition users_wf (db : DB) : Prop := NoDup (map user_id (users db)).

(** ** The remaining views *)

(** [CurrentUserView.get] (views.py, lines 78-86): the user and the
    profile's flag. *)
Definition CurrentUserView_get (ru : RequestUser) : View (User * bool) :=
  lift (check_permissions [IsAuthenticated] ru) ;;;
  profile <- query (fun db => get_profile db ru) ;;
  match ru with
  | AnonymousUser => raise TypeError
  | AuthUser u => ret (u, is_blog_admin profile)
  end.

(** What [DashboardView.get] answers with: the admin's four counts or the
    user's two. *)
Inductive DashboardStats :=
| AdminStats (total_posts published_posts total_comments pending_comments : nat)
| UserStats (liked_posts comments_made : nat).

(** [Comment.objects.filter(post__author=request.user, ...).count()]: the
    rows of the join of the kept comments with the requesting user's
    posts. *)
Definition count_on_posts_of (ru : RequestUser) (keep : Comment -> bool) (db : DB) : nat :=
  length (flat_map
            (fun c => if keep c
                      then filter (fun p => (post_id p =? comment_post c) &&
                                            same_user ru (author p)) (posts db)
                      else [])
            (comments db)).

(** [DashboardView.get] (views.py, lines 243-272). *)
Definition DashboardView_get (ru : RequestUser) : View DashboardStats :=
  lift (check_permissions [IsAuthenticated] ru) ;;;
  profile <- query (fun db => get_profile db ru) ;;
  if is_blog_admin profile then
    read (fun db =>
      let total_posts := count (fun p => same_user ru (author p)) (posts db) in
      let published_posts :=
        count (fun p => same_user ru (author p) && published p) (posts db) in
      let total_comments := count_on_posts_of ru (fun _ => true) db in
      let pending_comments := count_on_posts_of ru (fun c => negb (approved c)) db in
      AdminStats total_posts published_posts total_comments pending_comments)
  else
    read (fun db =>
      let liked_posts := count (fun l => same_user ru (like_user l)) (likes db) in
      let comments_made := count (fun c => same_user ru (comment_author c)) (comments db) in
      UserStats liked_posts comments_made).

(** ** Tokens *)

(** Modelled from the spec: the token row of the framework's token table,
    an opaque key owned by one user. *)
Record Token := mkToken {
  token_key : string;
  token_user : nat
}.

(** The store together with the token table. *)
Record AuthStore := mkAuthStore {
  store_db : DB;
  tokens : list Token
}.

(** What the token views can raise beyond the exceptions of the other
    views; neither of the two is caught by the framework. *)
Inductive auth_exn :=
| AuthExn (e : exn)
| IntegrityError
| RelatedObjectDoesNotExist.

Definition AuthView (A : Type) : Type := AuthStore -> AuthStore * (auth_exn + A).

(** [Token.objects.get_or_create(user=user)]: the user's token if there is
    one, a new row otherwise; [key] is the key the generator hands out,
    and a key already in the table is refused by the primary key. *)
Definition Token_get_or_create (key : string) (uid : nat) (ts : list Token)
    : list Token * (auth_exn + Token * bool) :=
  match objects_get (fun t => token_user t =? uid) ts with
  | inr token => (ts, inr (token, false))
  | inl DoesNotExist =>
      if exists_ (fun t => String.eqb (token_key t) key) ts
      then (ts, inl IntegrityError)
      else (ts ++ [mkToken key uid], inr (mkToken key uid, true))
  | inl e => (ts, inl (AuthExn e))
  end.

(** [UserRegisterSerializer.get_token] (serializers.py, lines 77-79). *)
Definition UserRegisterSerializer_get_token (key : string) (obj : User)
    (ts : list Token) : list Token * (auth_exn + string) :=
  match Token_get_or_create key (user_id obj) ts with
  | (ts', inr (token, created)) => (ts', inr (token_key token))
  | (ts', inl e) => (ts', inl e)
  end.

(** The response of the login view: 200 with token, user and flag, 400 or
    401 with an error. *)
Inductive LoginResponse :=
| LoginOk (token : string) (user : User) (blog_admin : bool)
| LoginBadRequest (error : string)
| LoginUnauthorized (error : string).

Definition login_status (r : LoginResponse) : nat :=
  match r with
  | LoginOk _ _ _ => 200
  | LoginBadRequest _ => 400
  | LoginUnauthorized _ => 401
  end.

Section AuthViews.

(** The framework's [authenticate]: the user a username and password
    stand for, if any. *)
Variable authenticate : DB -> string -> string -> option User.
Variable column_errors : RegisterData -> list (string * string).

(** [UserLoginView.post] (views.py, lines 34-65). *)
Definition UserLoginView_post (key : string) (username password : option string)
    : AuthView LoginResponse :=
  fun st =>
    match truthy username, truthy password with
    | Some username, Some password =>
        match authenticate (store_db st) username password with
        | None => (st, inr (LoginUnauthorized "Invalid credentials"))
        | Some user =>
            match Token_get_or_create key (user_id user) (tokens st) with
            | (ts, inl e) => (mkAuthStore (store_db st) ts, inl e)
            | (ts, inr (token, created)) =>
                let st' := mkAuthStore (store_db st) ts in
                match get_profile (store_db st) (AuthUser user) with
                | inl e => (st', inl (AuthExn e))
                | inr profile =>
                    (st', inr (LoginOk (token_key token) user (is_blog_admin profile)))
                end
            end
        end
    | _, _ => (st, inr (LoginBadRequest "Both username and password are required"))
    end.

(** [request.user.auth_token]: the reverse one-to-one accessor. *)
Definition auth_token (ru : RequestUser) (ts : list Token) : auth_exn + Token :=
  match ru with
  | AnonymousUser => inl (AuthExn AttributeError)
  | AuthUser u =>
      match objects_get (fun t => token_user t =? user_id u) ts with
      | inl DoesNotExist => inl RelatedObjectDoesNotExist
      | inl e => inl (AuthExn e)
      | inr token => inr token
      end
  end.

(** [UserLogoutView.post] (views.py, lines 67-76): the token row is
    deleted by its key. *)
Definition UserLogoutView_post (ru : RequestUser) : AuthView string :=
  fun st =>
    match check_permissions [IsAuthenticated] ru with
    | inl e => (st, inl (AuthExn e))
    | inr _ =>
        match auth_token ru (tokens st) with
        | inl e => (st, inl e)
        | inr token =>
            (mkAuthStore (store_db st)
                         (filter (fun t => negb (String.eqb (token_key t) (token_key token)))
                                 (tokens st)),
             inr "Logged out successfully")
        end
    end.

(** [UserRegisterView.post] with the token of its response (views.py,
    lines 23-32): the registration on the store, then [get_token] for the
    created user. *)
Definition UserRegisterView_post_with_token (key : string) (d : RegisterData)
    : AuthView (RegisterResponse * option string) :=
  fun st =>
    match UserRegisterView_post column_errors d (store_db st) with
    | (db', inl e) => (mkAuthStore db' (tokens st), inl (AuthExn e))
    | (db', inr (RegisterRejected errors)) =>
        (mkAuthStore db' (tokens st), inr (RegisterRejected errors, None))
    | (db', inr (RegisterCreated user)) =>
        match UserRegisterSerializer_get_token key user (tokens st) with
        | (ts, inl e) => (mkAuthStore db' ts, inl e)
        | (ts, inr k) => (mkAuthStore db' ts, inr (RegisterCreated user, Some k))
        end
    end.

End AuthViews.

(** ** Further store invariants *)

(** Usernames are distinct. *)
Definition usernames_wf (db : DB) : Prop := NoDup (map username (users db)).

(** A user owns at most one token, a key names at most one token, and
    every token belongs to a stored user. *)
Definition tokens_wf (st : AuthStore) : Prop :=
  NoDup (map token_user (tokens st)) /\
  NoDup (map token_key (tokens st)) /\
  forall t, In t (tokens st) -> In (token_user t) (map user_id (users (store_db st))).

(** ** Sample stores

    Concrete accounts, rows and instants on which the views are run. *)

Definition day : Z := (86400 * 1000000)%Z.

Definition alice : User := mkUser 1 "alice" "Alice" "Ade" "alice@example.org" "pw-a" false.
Definition bob : User := mkUser 2 "bob" "Bob" "Bello" "bob@example.org" "pw-b" false.
Definition carol : User := mkUser 3 "carol" "Carol" "Chi" "carol@example.org" "pw-c" true.

Definition now0 : Z := (100 * day)%Z.

Definition post_hi : BlogPost :=
  mkPost 1 "Hi" "Hello World" 1 (Some 1) (90 * day) (90 * day) true
         (Some (99 * day)%Z) None "hi".
Definition post_draft : BlogPost :=
  mkPost 2 "Notes" "unfinished" 1 None (95 * day) (95 * day) false None None "notes".
Definition post_scheduled : BlogPost :=
  mkPost 3 "Soon" "next week" 1 (Some 1) (98 * day) (98 * day) true
         (Some (107 * day)%Z) None "soon".
Definition post_old : BlogPost :=
  mkPost 4 "Old" "long ago" 1 None (10 * day) (10 * day) true
         (Some (10 * day)%Z) None "old".

Definition comment_pending : Comment := mkComment 1 1 2 "first" (91 * day) false.
Definition comment_shown : Comment := mkComment 2 1 2 "second" (92 * day) true.

Definition like_bob_hi : Like := mkLike 1 1 2 (93 * day).

Definition sample_db : DB :=
  mkDB [alice; bob; carol]
       [mkProfile 1 true; mkProfile 2 false; mkProfile 3 false]
       [mkCategory 1 "Tech"]
       [post_hi; post_draft; post_scheduled; post_old]
       [comment_pending; comment_shown]
       [like_bob_hi].

Definition no_column_errors (d : RegisterData) : list (string * string) := [].

(** A post model whose validators accept every body. *)
Definition no_post_errors (partial : bool) (d : PostData) : option string := None.

(** The decimal reading of the identifiers that occur in the samples. *)
Definition sample_int_of_param (s : string) : option nat :=
  if String.eqb s "1" then Some 1
  else if String.eqb s "2" then Some 2
  else None.

(** The framework's password check, standing in for [authenticate] on the
    samples: the stored user with that username and password. *)
Definition sample_authenticate (db : DB) (n p : string) : option User :=
  find (fun u => String.eqb (username u) n && String.eqb (password u) p) (users db).

Definition sample_store : AuthStore := mkAuthStore sample_db [mkToken "key-bob" 2].

(** * Properties *)

Unset Implicit Arguments.

(** ** Ordering *)

Section Ordering.

Context {A : Type} (before : A -> A -> bool).

Lemma insert_by_perm (x : A) (l : list A) :
  Permutation (insert_by before x l) (x :: l).
Proof.
  induction l as [|y l IH]; simpl.
  - apply Permutation_refl.
  - destruct (before x y).
    + apply Permutation_refl.
    + apply Permutation_trans with (y :: x :: l).
      * apply perm_skip, IH.
      * apply perm_swap.
Qed.

Lemma order_by_perm (l : list A) : Permutation (order_by before l) l.
Proof.
  induction l as [|x l IH]; simpl.
  - apply perm_nil.
  - apply Permutation_trans with (x :: order_by before l).
    + apply insert_by_perm.
    + apply perm_skip, IH.
Qed.

Lemma order_by_In (l : list A) (x : A) : In x (order_by before l) <-> In x l.
Proof.
  split; apply Permutation_in.
  - apply order_by_perm.
  - apply Permutation_sym, order_by_perm.
Qed.

Hypothesis before_total : forall a b, before a b = false -> before b a = true.
Hypothesis before_trans :
  forall a b c, before a b = true -> before b c = true -> before a c = true.

Let R (a b : A) : Prop := before a b = true.

Lemma insert_by_sorted (x : A) (l : list A) :
  StronglySorted R l -> StronglySorted R (insert_by before x l).
Proof.
  induction 1 as [|y l Hs IH Hy]; simpl.
  - constructor; constructor.
  - destruct (before x y) eqn:E.
    + constructor.
      * constructor; assumption.
      * constructor; [exact E|].
        rewrite Forall_forall in *. intros z Hz.
        apply before_trans with y; [exact E | apply Hy, Hz].
    + constructor; [exact IH|].
      rewrite Forall_forall in *. intros z Hz.
      apply (Permutation_in _ (insert_by_perm x l)) in Hz.
      destruct Hz as [<-|Hz].
      * apply before_total, E.
      * apply Hy, Hz.
Qed.

Lemma order_by_sorted (l : list A) : StronglySorted R (order_by before l).
Proof.
  induction l as [|x l IH]; simpl.
  - constructor.
  - apply insert_by_sorted, IH.
Qed.

End Ordering.

Lemma StronglySorted_filter {A} (R : A -> A -> Prop) (f : A -> bool) (l : list A) :
  StronglySorted R l -> StronglySorted R (filter f l).
Proof.
  induction 1 as [|x l Hs IH Hx]; simpl.
  - constructor.
  - destruct (f x); [|exact IH].
    constructor; [exact IH|].
    rewrite Forall_forall in *. intros y Hy.
    apply filter_In in Hy. apply Hx, Hy.
Qed.

Lemma In_firstn {A} (n : nat) (l : list A) (x : A) :
  In x (firstn n l) -> In x l.
Proof.
  revert n. induction l as [|y l IH]; intros [|n]; simpl; try tauto.
  intros [H|H]; [left; exact H | right; apply IH with n, H].
Qed.

Lemma StronglySorted_firstn {A} (R : A -> A -> Prop) (n : nat) (l : list A) :
  StronglySorted R l -> StronglySorted R (firstn n l).
Proof.
  intros Hs. revert n.
  induction Hs as [|x l Hs IH Hx]; intros [|n]; simpl; try constructor.
  - apply IH.
  - rewrite Forall_forall in *. intros y Hy.
    apply Hx, In_firstn with n, Hy.
Qed.

Lemma StronglySorted_weaken {A} (R S : A -> A -> Prop) (l : list A) :
  (forall a b, R a b -> S a b) -> StronglySorted R l -> StronglySorted S l.
Proof.
  intros HRS. induction 1 as [|x l Hs IH Hx]; constructor.
  - exact IH.
  - rewrite Forall_forall in *. intros y Hy. apply HRS, Hx, Hy.
Qed.

(** The two descending orders are total and transitive. *)
Lemma desc_Z_total {A} (key : A -> Z) (a b : A) :
  desc_Z key a b = false -> desc_Z key b a = true.
Proof. unfold desc_Z. rewrite Z.leb_gt, Z.leb_le. lia. Qed.

Lemma desc_Z_trans {A} (key : A -> Z) (a b c : A) :
  desc_Z key a b = true -> desc_Z key b c = true -> desc_Z key a c = true.
Proof. unfold desc_Z. rewrite !Z.leb_le. lia. Qed.

Lemma desc_opt_total (nf : bool) (x y : option Z) :
  desc_opt nf x y = false -> desc_opt nf y x = true.
Proof.
  destruct x as [a|], y as [b|], nf; simpl; try congruence.
  all: rewrite Z.leb_gt, Z.leb_le; lia.
Qed.

Lemma desc_opt_trans (nf : bool) (x y z : option Z) :
  desc_opt nf x y = true -> desc_opt nf y z = true -> desc_opt nf x z = true.
Proof.
  destruct x as [a|], y as [b|], z as [c|], nf; simpl; try congruence.
  all: rewrite !Z.leb_le; lia.
Qed.

Lemma StronglySorted_weaken_in {A} (R S : A -> A -> Prop) (l : list A) :
  (forall a b, In a l -> In b l -> R a b -> S a b) ->
  StronglySorted R l -> StronglySorted S l.
Proof.
  intros HRS Hs. induction Hs as [|x l Hs IH Hx]; constructor.
  - apply IH. intros a b Ha Hb. apply HRS; right; assumption.
  - rewrite Forall_forall in *. intros y Hy.
    apply HRS; [left; reflexivity | right; exact Hy | apply Hx, Hy].
Qed.

(** ** The object manager *)

Lemma exists_spec {A} (f : A -> bool) (l : list A) :
  exists_ f l = true <-> exists x, In x l /\ f x = true.
Proof.
  unfold exists_. split.
  - destruct (filter f l) as [|x l'] eqn:E; [discriminate|].
    intros _. exists x. apply filter_In. rewrite E. left. reflexivity.
  - intros [x Hx]. apply filter_In in Hx.
    destruct (filter f l); [destruct Hx | reflexivity].
Qed.

Lemma exists_false_filter {A} (f : A -> bool) (l : list A) :
  exists_ f l = false <-> filter f l = [].
Proof.
  unfold exists_. destruct (filter f l); split; congruence.
Qed.

Lemma objects_get_inr {A} (f : A -> bool) (l : list A) (x : A) :
  objects_get f l = inr x <-> filter f l = [x].
Proof.
  unfold objects_get. destruct (filter f l) as [|y [|z l']]; split; congruence.
Qed.

Lemma get_object_or_404_inr {A} (f : A -> bool) (l : list A) (x : A) :
  get_object_or_404 f l = inr x <-> filter f l = [x].
Proof.
  unfold get_object_or_404, objects_get.
  destruct (filter f l) as [|y [|z l']]; split; congruence.
Qed.

Lemma get_object_or_404_found {A} (f : A -> bool) (l : list A) (x : A) :
  get_object_or_404 f l = inr x -> In x l /\ f x = true.
Proof.
  intros H. apply get_object_or_404_inr in H.
  apply filter_In. rewrite H. left. reflexivity.
Qed.

Lemma get_object_or_404_missing {A} (f : A -> bool) (l : list A) :
  filter f l = [] -> get_object_or_404 f l = inl Http404.
Proof. unfold get_object_or_404, objects_get. intros ->. reflexivity. Qed.

Lemma filter_filter_negb {A} (f : A -> bool) (l : list A) :
  filter f (filter (fun x => negb (f x)) l) = [].
Proof.
  induction l as [|x l IH]; simpl; [reflexivity|].
  destruct (f x) eqn:E; simpl; [exact IH|]. rewrite E. exact IH.
Qed.

Lemma next_pk_bound (pks : list nat) (k : nat) : In k pks -> k < next_pk pks.
Proof.
  unfold next_pk. induction pks as [|x pks IH]; simpl; [tauto|].
  intros [->|H]; [lia|]. specialize (IH H). lia.
Qed.

Lemma next_pk_fresh (pks : list nat) : ~ In (next_pk pks) pks.
Proof. intros H. apply next_pk_bound in H. lia. Qed.

Lemma NoDup_map_inj {A B} (f : A -> B) (l : list A) (a b : A) :
  NoDup (map f l) -> In a l -> In b l -> f a = f b -> a = b.
Proof.
  induction l as [|x l IH]; simpl; [tauto|].
  intros Hnd Ha Hb Hab. inversion Hnd as [|y ys Hx Hl]; subst.
  destruct Ha as [->|Ha], Hb as [->|Hb].
  - reflexivity.
  - exfalso. apply Hx. rewrite Hab. apply in_map, Hb.
  - exfalso. apply Hx. rewrite <- Hab. apply in_map, Ha.
  - apply IH; assumption.
Qed.

Lemma NoDup_snoc {A} (l : list A) (x : A) : NoDup l -> ~ In x l -> NoDup (l ++ [x]).
Proof.
  intros Hl Hx. apply NoDup_rev in Hl.
  rewrite <- (rev_involutive (l ++ [x])). apply NoDup_rev.
  rewrite rev_app_distr. simpl. constructor; [|exact Hl].
  rewrite <- in_rev. exact Hx.
Qed.

(** Deleting by primary key removes the rows of the looked-up pair and no
    other. *)
Lemma filter_pk_is_filter_lookup {A} (key : A -> nat) (p : A -> bool)
    (l : list A) (x : A) :
  NoDup (map key l) -> filter p l = [x] ->
  filter (fun y => negb (key y =? key x)) l = filter (fun y => negb (p y)) l.
Proof.
  intros Hnd Hx. apply filter_ext_in. intros y Hy. f_equal.
  assert (Hxin : In x l /\ p x = true).
  { apply filter_In. rewrite Hx. left. reflexivity. }
  destruct (p y) eqn:E.
  - assert (Hin : In y (filter p l)) by (apply filter_In; split; assumption).
    rewrite Hx in Hin. destruct Hin as [<-|[]]. apply Nat.eqb_refl.
  - apply Nat.eqb_neq. intros Hk.
    assert (y = x) by (apply (NoDup_map_inj key l); tauto).
    subst y. destruct Hxin as [_ Hpx]. congruence.
Qed.

Lemma count_le_1_filter {A} (p : A -> bool) (l : list A) :
  count p l <= 1 -> exists_ p l = true -> exists x, filter p l = [x].
Proof.
  unfold count, exists_. destruct (filter p l) as [|x [|y l']]; simpl.
  - discriminate.
  - intros _ _. exists x. reflexivity.
  - lia.
Qed.

(** ** Updating rows by key *)

Section RowUpdate.

Context {A : Type} (p : A -> bool) (c c' : A).

Let upd (x : A) : A := if p x then c' else x.

Lemma filter_nil_update (l : list A) : filter p l = [] -> map upd l = l.
Proof.
  induction l as [|x l IH]; simpl; [reflexivity|].
  unfold upd at 1. destruct (p x) eqn:E; [discriminate|].
  intros H. rewrite IH by exact H. reflexivity.
Qed.

Lemma filter_update (l : list A) :
  filter p l = [c] -> p c' = true -> filter p (map upd l) = [c'].
Proof.
  intros Hl Hc'. induction l as [|x l IH]; simpl in *; [discriminate|].
  destruct (p x) eqn:E.
  - injection Hl as -> Hl.
    assert (Hu : upd c = c') by (unfold upd; rewrite E; reflexivity).
    rewrite Hu, Hc'. rewrite filter_nil_update by exact Hl. rewrite Hl. reflexivity.
  - assert (Hu : upd x = x) by (unfold upd; rewrite E; reflexivity).
    rewrite Hu, E. apply IH, Hl.
Qed.

Lemma length_filter_update (g : A -> bool) (l : list A) :
  filter p l = [c] ->
  length (filter g (map upd l)) + Nat.b2n (g c) = length (filter g l) + Nat.b2n (g c').
Proof.
  induction l as [|x l IH]; simpl; [discriminate|].
  destruct (p x) eqn:E.
  - intros Hl. injection Hl as -> Hl.
    assert (Hu : upd c = c') by (unfold upd; rewrite E; reflexivity).
    rewrite Hu. rewrite filter_nil_update by exact Hl.
    destruct (g c), (g c'); simpl; lia.
  - intros Hl. specialize (IH Hl).
    assert (Hu : upd x = x) by (unfold upd; rewrite E; reflexivity).
    rewrite Hu. destruct (g x); simpl; lia.
Qed.

Lemma update_twice (l : list A) : p c' = true -> map upd (map upd l) = map upd l.
Proof.
  intros Hc'. rewrite map_map. apply map_ext. intros x. unfold upd.
  destruct (p x) eqn:E; [rewrite Hc' | rewrite E]; reflexivity.
Qed.

End RowUpdate.

Lemma update_same {A} (p : A -> bool) (c : A) (l : list A) :
  filter p l = [c] -> map (fun x => if p x then c else x) l = l.
Proof.
  intros Hl. rewrite <- (map_id l) at 2. apply map_ext_in. intros x Hx.
  destruct (p x) eqn:E; [|reflexivity].
  assert (Hin : In x (filter p l)) by (apply filter_In; split; assumption).
  rewrite Hl in Hin. destruct Hin as [<-|[]]. reflexivity.
Qed.

Lemma set_approved_approved (c : Comment) : approved c = true -> set_approved c = c.
Proof. destruct c; simpl. intros ->. reflexivity. Qed.

(** ** Running a view *)

Ltac run := unfold bind, lift, query, read, write, ret, raise.

(** ** Case-insensitive containment *)

Lemma prefix_spec (n h : string) :
  String.prefix n h = true <-> exists post, h = (n ++ post)%string.
Proof.
  revert h. induction n as [|a n IH]; intros [|b h]; simpl.
  - split; [intros _; exists EmptyString; reflexivity | reflexivity].
  - split; [intros _; exists (String b h); reflexivity | reflexivity].
  - split; [discriminate | intros [post H]; discriminate H].
  - destruct (Ascii.ascii_dec a b) as [->|Hab].
    + rewrite IH. split; intros [post H]; exists post; congruence.
    + split; [discriminate|]. intros [post H]. congruence.
Qed.

Lemma contains_spec (n h : string) :
  contains n h = true <-> exists pre post, h = (pre ++ n ++ post)%string.
Proof.
  induction h as [|b h IH]; cbn [contains]; rewrite orb_true_iff, prefix_spec.
  - split.
    + intros [[post H]|H]; [|discriminate]. exists EmptyString, post. exact H.
    + intros [[|c pre] [post H]]; [left; exists post; exact H | discriminate H].
  - rewrite IH. split.
    + intros [[post H]|[pre [post H]]].
      * exists EmptyString, post. exact H.
      * exists (String b pre), post. simpl. congruence.
    + intros [[|c pre] [post H]].
      * left. exists post. exact H.
      * right. exists pre, post. simpl in H. congruence.
Qed.

Lemma icontains_spec (field term : string) :
  icontains field term = true <-> occurs_ci term field.
Proof. unfold icontains, occurs_ci. apply contains_spec. Qed.

Lemma lower_idempotent (s : string) : lower (lower s) = lower s.
Proof.
  induction s as [|c s IH]; simpl; [reflexivity|]. rewrite IH. f_equal.
  destruct c as [[|] [|] [|] [|] [|] [|] [|] [|]]; reflexivity.
Qed.

(** Letter case plays no part in the match. *)
Lemma icontains_lower (field term : string) :
  icontains (lower field) (lower term) = icontains field term.
Proof. unfold icontains. rewrite !lower_idempotent. reflexivity. Qed.

(** ** Administrative permissions *)


(** The other way round on the sample store: alice's profile has the flag,
    she is not staff, and her category is refused while her post is
    stored. *)
Example blog_admin_without_staff_flag :
  denied sample_db (BlogCategoryListView_post (AuthUser alice) "News" sample_db) /\
  succeeded (BlogPostListView_post no_post_errors (AuthUser alice)
               (mkPostData (Some "T") (Some "text") None None None None) now0 sample_db)
    = true.
Proof. split; [split|]; reflexivity. Qed.



(** ** Likes *)

(** Liking a post that is not yet liked keeps the like table's keys. *)
Lemma likes_wf_insert (db : DB) (pid uid : nat) (now : Z) :
  likes_wf db ->
  filter (fun l => (like_post l =? pid) && (uid =? like_user l)) (likes db) = [] ->
  likes_wf (set_likes (fun rows => rows ++ [mkLike (next_pk (map like_id (likes db)))
                                                   pid uid now]) db).
Proof.
  intros [Hnd Huniq] Hnone. split; simpl.
  - rewrite map_app. simpl. apply NoDup_snoc; [exact Hnd | apply next_pk_fresh].
  - intros pid' uid'. unfold count. rewrite filter_app, length_app. simpl.
    specialize (Huniq pid' uid'). unfold count in Huniq.
    destruct ((pid =? pid') && (uid' =? uid)) eqn:E; simpl; [|lia].
    apply andb_true_iff in E. destruct E as [E1 E2].
    apply Nat.eqb_eq in E1, E2. subst pid' uid'. rewrite Hnone. simpl. lia.
Qed.

(** C2, as stated, fails: bob's second like of the same post is refused
    with a validation error (status 400), not with the conflict class. *)
Lemma second_like_is_validation_error :
  exists_ (like_of 1 (AuthUser bob)) (likes sample_db) = true /\
  raised (LikeCreateView_post (AuthUser bob) 1 now0 sample_db)
    = Some (ValidationError "You already liked this post") /\
  failure_class (LikeCreateView_post (AuthUser bob) 1 now0 sample_db)
    <> Some ApiConflictError.
Proof.
  split; [reflexivity|]. split; [reflexivity|].
  vm_compute. discriminate.
Qed.

(** C2, amended: for every authenticated actor and stored post, over a
    like table with distinct keys, creating a like fails with a validation
    error (status 400, store unchanged) when a like of that (post, actor)
    pair is stored and otherwise appends exactly one like of that pair,
    keeping the table's keys; deleting a like fails with the not-found
    class when no like of the pair is stored and otherwise removes exactly
    the likes of that pair, one row; a second consecutive unlike is
    not-found. *)
Theorem like_create_delete (db : DB) (u : User) (pid : nat) (post : BlogPost) (now : Z)
    (Hwf : likes_wf db)
    (Hpost : get_object_or_404 (fun p => post_id p =? pid) (posts db) = inr post) :
  let ru := AuthUser u in
  let liked := exists_ (like_of pid ru) (likes db) in
  let l := mkLike (next_pk (map like_id (likes db))) pid (user_id u) now in
  let unliked := set_likes (filter (fun x => negb (like_of pid ru x))) db in
  LikeCreateView_post ru pid now db
    = (if liked then (db, inl (ValidationError "You already liked this post"))
       else (set_likes (fun rows => rows ++ [l]) db, inr l)) /\
  api_error (ValidationError "You already liked this post") = Some ApiValidationError /\
  likes_wf (fst (LikeCreateView_post ru pid now db)) /\
  LikeDeleteView_delete ru pid db
    = (if liked then (unliked, inr tt) else (db, inl Http404)) /\
  api_error Http404 = Some ApiNotFoundError /\
  length (likes unliked) + (if liked then 1 else 0) = length (likes db) /\
  LikeDeleteView_delete ru pid unliked = (unliked, inl Http404).
Proof.
  intros ru liked l unliked. subst ru.
  destruct (get_object_or_404_found _ _ _ Hpost) as [_ Hpid]. apply Nat.eqb_eq in Hpid.
  assert (Hcreate : LikeCreateView_post (AuthUser u) pid now db
            = (if liked then (db, inl (ValidationError "You already liked this post"))
               else (set_likes (fun rows => rows ++ [l]) db, inr l))).
  { unfold LikeCreateView_post, LikeCreateView_perform_create, post_get_object, likes_filter.
    run. cbn [check_permissions has_permission is_authenticated].
    rewrite Hpost, Hpid. unfold liked, exists_.
    destruct (filter (like_of pid (AuthUser u)) (likes db)); reflexivity. }
  assert (Hdelete : forall db0,
            posts db0 = posts db ->
            LikeDeleteView_delete (AuthUser u) pid db0
            = match get_object_or_404 (like_of pid (AuthUser u)) (likes db0) with
              | inl e => (db0, inl e)
              | inr x => (set_likes (filter (fun y => negb (like_id y =? like_id x))) db0, inr tt)
              end).
  { intros db0 Hposts.
    unfold LikeDeleteView_delete, LikeDeleteView_get_object, post_get_object.
    run. cbn [check_permissions has_permission is_authenticated].
    rewrite Hposts, Hpost, Hpid.
    destruct (get_object_or_404 (like_of pid (AuthUser u)) (likes db0)); reflexivity. }
  split; [exact Hcreate|]. split; [reflexivity|].
  split.
  { rewrite Hcreate. destruct liked eqn:E; [exact Hwf|].
    apply (likes_wf_insert db pid (user_id u) now Hwf).
    apply exists_false_filter, E. }
  assert (Hlen : length (likes unliked) + (if liked then 1 else 0) = length (likes db) /\
                 LikeDeleteView_delete (AuthUser u) pid db
                 = (if liked then (unliked, inr tt) else (db, inl Http404))).
  { rewrite (Hdelete db eq_refl). destruct liked eqn:E.
    - destruct Hwf as [Hnd Huniq].
      destruct (count_le_1_filter _ _ (Huniq pid (user_id u)) E) as [x Hx].
      change (filter (like_of pid (AuthUser u)) (likes db) = [x]) in Hx.
      rewrite (proj2 (get_object_or_404_inr _ _ _) Hx).
      pose proof (filter_pk_is_filter_lookup like_id _ _ _ Hnd Hx) as Hsame.
      split.
      + unfold unliked. cbn [likes set_likes].
        pose proof (filter_length (like_of pid (AuthUser u)) (likes db)) as Hsplit.
        rewrite Hx in Hsplit. simpl in Hsplit. lia.
      + unfold unliked, set_likes. rewrite Hsame. reflexivity.
    - apply exists_false_filter in E.
      rewrite (get_object_or_404_missing _ _ E). split; [|reflexivity].
      unfold unliked. cbn [likes set_likes].
      pose proof (filter_length (like_of pid (AuthUser u)) (likes db)) as Hsplit.
      rewrite E in Hsplit. simpl in Hsplit. lia. }
  destruct Hlen as [Hlen Hdel].
  split; [exact Hdel|]. split; [reflexivity|]. split; [exact Hlen|].
  rewrite (Hdelete unliked eq_refl).
  rewrite get_object_or_404_missing; [reflexivity|].
  unfold unliked. cbn [likes set_likes]. apply filter_filter_negb.
Qed.

Lemma sample_db_likes_wf : likes_wf sample_db.
Proof.
  split.
  - simpl. constructor; [simpl; tauto | constructor].
  - intros pid uid. unfold count, sample_db, like_bob_hi. cbn.
    destruct (_ && _); simpl; lia.
Defined.

(** On the sample store: bob has liked the post, so
    his next like is refused, his unlike removes the row and a second
    unlike finds nothing. *)
Lemma like_create_delete_witness :
  likes_wf sample_db /\
  get_object_or_404 (fun p => post_id p =? 1) (posts sample_db) = inr post_hi /\
  LikeDeleteView_delete (AuthUser bob) 1 sample_db
    = (set_likes (fun _ => []) sample_db, inr tt) /\
  LikeDeleteView_delete (AuthUser bob) 1 (set_likes (fun _ => []) sample_db)
    = (set_likes (fun _ => []) sample_db, inl Http404).
Proof.
  split; [exact sample_db_likes_wf|]. split; [reflexivity|].
  pose proof (like_create_delete sample_db bob 1 post_hi now0
                sample_db_likes_wf eq_refl) as H.
  split; apply H.
Defined.

(** ** Comment listing *)

(** C3, as stated, fails: for an id that no post carries the listing
    answers with an empty list, not with [Http404]. *)
Lemma comment_list_of_missing_post_succeeds :
  get_object_or_404 (fun p => post_id p =? 9) (posts sample_db) = inl Http404 /\
  CommentListView_get (AuthUser bob) 9 sample_db = (sample_db, inr []) /\
  failure_class (CommentListView_get (AuthUser bob) 9 sample_db)
    <> Some ApiNotFoundError.
Proof.
  split; [reflexivity|]. split; [reflexivity|].
  vm_compute. discriminate.
Qed.

(** C3, amended: for every post id and authenticated caller the comment
    listing succeeds, whether or not a post with that id exists, and
    returns exactly the stored comments that reference that id and have
    [approved = true], ordered by [created_at] descending. *)
Theorem comment_list_approved_sorted (db : DB) (u : User) (pid : nat) :
  let l := CommentListView_get_queryset pid db in
  CommentListView_get (AuthUser u) pid db = (db, inr l) /\
  Permutation l (filter (fun c => (comment_post c =? pid) && approved c) (comments db)) /\
  (forall c, In c l <-> In c (comments db) /\ comment_post c = pid /\ approved c = true) /\
  StronglySorted (fun a b => (comment_created_at b <= comment_created_at a)%Z) l.
Proof.
  intros l. unfold l, CommentListView_get_queryset.
  split; [reflexivity|].
  split; [apply order_by_perm|].
  split.
  - intros c. rewrite order_by_In, filter_In, andb_true_iff, Nat.eqb_eq. tauto.
  - apply StronglySorted_weaken
      with (R := fun a b => desc_Z comment_created_at a b = true).
    + intros a b H. apply Z.leb_le, H.
    + apply order_by_sorted.
      * intros a b. apply desc_Z_total.
      * intros a b c. apply desc_Z_trans.
Qed.

(** ** Registration *)

Lemma register_post_unfold (column_errors : RegisterData -> list (string * string))
    (d : RegisterData) (db : DB) :
  UserRegisterView_post column_errors d db
  = match UserRegisterSerializer_errors column_errors db d with
    | [] =>
        let user := mkUser (next_pk (map user_id (users db)))
                           (dflt (rd_username d) "") (dflt (rd_first_name d) "")
                           (dflt (rd_last_name d) "") (dflt (rd_email d) "")
                           (dflt (rd_password d) "") false in
        (set_profiles (fun l => l ++ [mkProfile (user_id user)
                                                (dflt (rd_is_blog_admin d) false)])
           (set_users (fun l => l ++ [user]) db),
         inr (RegisterCreated user))
    | e :: es => (db, inr (RegisterRejected (e :: es)))
    end.
Proof.
  unfold UserRegisterView_post, UserRegisterSerializer_create. run.
  destruct (UserRegisterSerializer_errors column_errors db d); reflexivity.
Qed.

(** C4, as stated, fails: registering the stored username "alice" again is
    answered with status 400, the validation class, not with a conflict. *)
Lemma duplicate_username_is_validation_error :
  exists_ (fun u => String.eqb (username u) "alice") (users sample_db) = true /\
  UserRegisterView_post no_column_errors
      (mkRegisterData (Some "alice") (Some "pw") (Some "a@example.org")
                      (Some "Al") (Some "Ice") None) sample_db
    = (sample_db,
       inr (RegisterRejected [("username", "A user with that username already exists.")])) /\
  response_class (RegisterRejected [("username", "A user with that username already exists.")])
    <> Some ApiConflictError.
Proof.
  split; [reflexivity|]. split; [reflexivity|].
  vm_compute. discriminate.
Qed.

(** C4, amended: registration is answered with status 400, the validation
    class, and an unchanged store when the requested username is already
    stored and when any of email, first_name or last_name is absent; when
    username, password, email, first_name and last_name are all present,
    the username is new and the column validators raise nothing, it is
    answered with the created user and appends exactly that user and one
    profile for it, whose [is_blog_admin] is the requested value, false
    when none was requested; over a store whose profiles all belong to
    stored users that profile is the user's only one. *)
Theorem register_rejects_or_creates
    (column_errors : RegisterData -> list (string * string)) (db : DB) (d : RegisterData) :
  let r := UserRegisterView_post column_errors d db in
  ((exists n, rd_username d = Some n /\
              exists_ (fun u => String.eqb (username u) n) (users db) = true) \/
   rd_email d = None \/ rd_first_name d = None \/ rd_last_name d = None ->
   exists errors,
     r = (db, inr (RegisterRejected errors)) /\
     response_class (RegisterRejected errors) = Some ApiValidationError) /\
  (forall n pw e f l,
     rd_username d = Some n -> rd_password d = Some pw -> rd_email d = Some e ->
     rd_first_name d = Some f -> rd_last_name d = Some l ->
     exists_ (fun u => String.eqb (username u) n) (users db) = false ->
     column_errors d = [] ->
     let user := mkUser (next_pk (map user_id (users db))) n f l e pw false in
     let profile := mkProfile (user_id user) (dflt (rd_is_blog_admin d) false) in
     r = (set_profiles (fun ps => ps ++ [profile]) (set_users (fun us => us ++ [user]) db),
          inr (RegisterCreated user)) /\
     (is_blog_admin profile = true <-> rd_is_blog_admin d = Some true) /\
     (profiles_wf db ->
      count (fun p => profile_user p =? user_id user) (profiles (fst r)) = 1)).
Proof.
  intros r. unfold r. rewrite register_post_unfold. split.
  - intros Hbad.
    assert (Hne : UserRegisterSerializer_errors column_errors db d <> []).
    { unfold UserRegisterSerializer_errors, username_taken, required.
      destruct Hbad as [[n [Hn Hex]] | [H | [H | H]]].
      - rewrite Hn, Hex. discriminate.
      - rewrite H. destruct (rd_username d) as [n|]; [|discriminate].
        destruct (exists_ _ (users db)); [discriminate|].
        destruct (rd_password d); discriminate.
      - rewrite H. destruct (rd_username d) as [n|]; [|discriminate].
        destruct (exists_ _ (users db)); [discriminate|].
        destruct (rd_password d); [|discriminate].
        destruct (rd_email d); discriminate.
      - rewrite H. destruct (rd_username d) as [n|]; [|discriminate].
        destruct (exists_ _ (users db)); [discriminate|].
        destruct (rd_password d); [|discriminate].
        destruct (rd_email d); [|discriminate].
        destruct (rd_first_name d); discriminate. }
    destruct (UserRegisterSerializer_errors column_errors db d) as [|e es];
      [congruence|].
    exists (e :: es). split; reflexivity.
  - intros n pw e f l Hn Hpw He Hf Hl Hfresh Hcol.
    assert (Hnone : UserRegisterSerializer_errors column_errors db d = []).
    { unfold UserRegisterSerializer_errors, username_taken, required.
      rewrite Hn, Hpw, He, Hf, Hl, Hfresh, Hcol. reflexivity. }
    rewrite Hnone, Hn, Hpw, He, Hf, Hl. cbn [dflt].
    split; [reflexivity|]. split.
    + cbn [is_blog_admin].
      destruct (rd_is_blog_admin d) as [[|]|]; simpl; split; congruence.
    + intros Hwf. cbn [fst profiles set_profiles set_users user_id].
      unfold count. rewrite filter_app, length_app.
      cbn [filter profile_user]. rewrite Nat.eqb_refl. cbn [length].
      assert (Hzero : filter (fun p => profile_user p =? next_pk (map user_id (users db)))
                             (profiles db) = []).
      { apply exists_false_filter. destruct (exists_ _ (profiles db)) eqn:E; [|reflexivity].
        apply exists_spec in E. destruct E as [p [Hp Heq]].
        apply Nat.eqb_eq in Heq. apply Hwf in Hp. rewrite Heq in Hp.
        exfalso. apply (next_pk_fresh (map user_id (users db))). exact Hp. }
      rewrite Hzero. reflexivity.
Qed.

Lemma sample_db_profiles_wf : profiles_wf sample_db.
Proof.
  intros p Hp. unfold sample_db in *. simpl in *.
  destruct Hp as [<-|[<-|[<-|[]]]]; simpl; tauto.
Defined.

(** On the sample store: "dora" registers
    with every field and without asking for the admin flag; she becomes
    user 4 with one profile, not an admin. *)
Lemma register_rejects_or_creates_witness :
  exists_ (fun u => String.eqb (username u) "dora") (users sample_db) = false /\
  no_column_errors (mkRegisterData (Some "dora") (Some "pw-d") (Some "dora@example.org")
                                   (Some "Dora") (Some "Dee") None) = [] /\
  profiles_wf sample_db /\
  snd (UserRegisterView_post no_column_errors
         (mkRegisterData (Some "dora") (Some "pw-d") (Some "dora@example.org")
                         (Some "Dora") (Some "Dee") None) sample_db)
    = inr (RegisterCreated (mkUser 4 "dora" "Dora" "Dee" "dora@example.org" "pw-d" false)) /\
  count (fun p => profile_user p =? 4)
        (profiles (fst (UserRegisterView_post no_column_errors
           (mkRegisterData (Some "dora") (Some "pw-d") (Some "dora@example.org")
                           (Some "Dora") (Some "Dee") None) sample_db))) = 1.
Proof.
  split; [reflexivity|]. split; [reflexivity|]. split; [exact sample_db_profiles_wf|].
  destruct (register_rejects_or_creates no_column_errors sample_db
              (mkRegisterData (Some "dora") (Some "pw-d") (Some "dora@example.org")
                              (Some "Dora") (Some "Dee") None)) as [_ H].
  destruct (H "dora" "pw-d" "dora@example.org" "Dora" "Dee"
              eq_refl eq_refl eq_refl eq_refl eq_refl eq_refl eq_refl) as [H1 [_ H3]].
  split.
  - rewrite H1. reflexivity.
  - apply H3. exact sample_db_profiles_wf.
Defined.

(** ** The detail views *)

Lemma post_permissions_recurse (limit : nat) (m : Method) (ru : RequestUser)
    (pk : nat) (db : DB) (post : BlogPost) :
  is_write_method m = true ->
  get_object_or_404 (fun p => post_id p =? pk) (posts db) = inr post ->
  BlogPostDetailView_get_permissions limit m ru pk db = (db, inl RecursionError).
Proof.
  intros Hm Hpost.
  induction limit as [|limit IH]; cbn [BlogPostDetailView_get_permissions];
    rewrite Hm; unfold post_get_object; run; rewrite Hpost.
  - reflexivity.
  - rewrite IH. reflexivity.
Qed.

Lemma comment_permissions_recurse (limit : nat) (m : Method) (ru : RequestUser)
    (pk : nat) (db : DB) (comment : Comment) :
  get_object_or_404 (fun c => comment_id c =? pk) (comments db) = inr comment ->
  CommentDetailView_get_permissions limit m ru pk db = (db, inl RecursionError).
Proof.
  intros Hc.
  induction limit as [|limit IH]; cbn [CommentDetailView_get_permissions];
    unfold comment_get_object; run; rewrite Hc.
  - reflexivity.
  - rewrite IH. reflexivity.
Qed.

(** C5 fails on the code: whatever depth of nested calls the interpreter
    allows and whoever the actor is, the author and the admins included, an
    update or a delete of a stored post or of a stored comment ends in
    [RecursionError], a server error that is neither a success nor a
    permission error, and the store is left as it was: [get_permissions]
    calls [get_object], which asks [get_permissions] again. *)
Theorem detail_writes_end_in_recursion
    (post_invalid : bool -> PostData -> option string) (limit : nat) (db : DB)
    (ru : RequestUser) (post : BlogPost) (comment : Comment) (m : Method)
    (ppk cpk : nat) (d : PostData) (body : CommentBody) (now : Z)
    (Hm : is_write_method m = true)
    (Hpost : get_object_or_404 (fun p => post_id p =? ppk) (posts db) = inr post)
    (Hcomment : get_object_or_404 (fun c => comment_id c =? cpk) (comments db)
                = inr comment) :
  BlogPostDetailView_update post_invalid limit m ru ppk d now db
    = (db, inl RecursionError) /\
  BlogPostDetailView_destroy limit ru ppk db = (db, inl RecursionError) /\
  CommentDetailView_update limit m ru cpk body db = (db, inl RecursionError) /\
  CommentDetailView_destroy limit ru cpk db = (db, inl RecursionError) /\
  status_code RecursionError = 500 /\
  api_error RecursionError = None.
Proof.
  unfold BlogPostDetailView_update, BlogPostDetailView_destroy,
    CommentDetailView_update, CommentDetailView_destroy,
    BlogPostDetailView_initial, CommentDetailView_initial.
  unfold bind.
  rewrite (post_permissions_recurse limit m ru ppk db post Hm Hpost).
  rewrite (post_permissions_recurse limit DELETE ru ppk db post eq_refl Hpost).
  rewrite (comment_permissions_recurse limit m ru cpk db comment Hcomment).
  rewrite (comment_permissions_recurse limit DELETE ru cpk db comment Hcomment).
  repeat split.
Qed.

(** On the sample store, with a thousand nested calls allowed: alice, who
    wrote post 1 and is an admin, cannot update it, and bob cannot delete
    his own comment. *)
Lemma detail_writes_end_in_recursion_witness :
  is_write_method PATCH = true /\
  get_object_or_404 (fun p => post_id p =? 1) (posts sample_db) = inr post_hi /\
  get_object_or_404 (fun c => comment_id c =? 1) (comments sample_db) = inr comment_pending /\
  (user_id alice = author post_hi /\
   get_profile sample_db (AuthUser alice) = inr (mkProfile 1 true)) /\
  BlogPostDetailView_update no_post_errors 1000 PATCH (AuthUser alice) 1
      (mkPostData None None (Some true) None None None) now0 sample_db
    = (sample_db, inl RecursionError).
Proof.
  repeat (split; [reflexivity|]).
  split; [split; reflexivity|].
  apply (detail_writes_end_in_recursion no_post_errors 1000 sample_db (AuthUser alice)
           post_hi comment_pending PATCH 1 1
           (mkPostData None None (Some true) None None None)
           (mkCommentBody None None None None (Some true)) now0
           eq_refl eq_refl eq_refl).
Defined.

(** ** Published listing *)

Lemma find_user_of_id (us : list User) (k : nat) :
  In k (map user_id us) -> exists u, find (fun u => user_id u =? k) us = Some u.
Proof.
  induction us as [|u us IH]; simpl; [tauto|].
  intros [H|H].
  - exists u. rewrite H, Nat.eqb_refl. reflexivity.
  - destruct (user_id u =? k); [exists u; reflexivity | apply IH, H].
Qed.

Lemma find_user_found (us : list User) (k : nat) (u : User) :
  find (fun u => user_id u =? k) us = Some u -> In u us /\ user_id u = k.
Proof.
  intros H. apply find_some in H. destruct H as [Hin Hk].
  apply Nat.eqb_eq in Hk. split; assumption.
Qed.

(** C6: when every post's author is a stored user, users have distinct
    primary keys and the category parameter, if supplied, converts to an
    identifier, the published listing returns exactly the stored posts
    with [published = true] that belong to the supplied category, if any,
    and, if a search term is supplied, contain it, letter case aside, in
    their title or in their content or in the username of the stored user
    who is their author; the result holds no unpublished post and is
    ordered by [published_date] descending. *)
Theorem list_published_filters (nulls_first : bool) (int_of_param : string -> option nat)
    (db : DB) (qp : QueryParams) (cat : option nat)
    (Hauthors : authors_wf db)
    (Husers : users_wf db)
    (Hcat : category_supplied int_of_param qp cat) :
  exists l,
    BlogPostListView_get_queryset nulls_first int_of_param qp db = inr l /\
    (forall p, In p l <->
       In p (posts db) /\ published p = true /\
       (forall cid, cat = Some cid -> category p = Some cid) /\
       (forall term,
          truthy (qp_search qp) = Some term ->
          occurs_ci term (title p) \/ occurs_ci term (content p) \/
          exists u, In u (users db) /\ user_id u = author p /\
                    occurs_ci term (username u))) /\
    Forall (fun p => published p = true) l /\
    StronglySorted (fun a b => by_published_date nulls_first a b = true) l /\
    StronglySorted (fun a b => forall x y, published_date a = Some x ->
                                           published_date b = Some y -> (y <= x)%Z) l.
Proof.
  set (sorted := order_by (by_published_date nulls_first) (filter published (posts db))).
  set (cat_ok := fun p => match cat with Some cid => in_category cid p | None => true end).
  set (search_ok := fun p => match truthy (qp_search qp) with
                             | Some term => search_matches db term p
                             | None => true
                             end).
  exists (filter search_ok (filter cat_ok sorted)).
  assert (Hcat_ok : forall p, cat_ok p = true <->
                              forall cid, cat = Some cid -> category p = Some cid).
  { intros p. unfold cat_ok, in_category. destruct cat as [cid|].
    - destruct (category p) as [c|].
      + rewrite Nat.eqb_eq. split.
        * intros -> cid' H. congruence.
        * intros H. specialize (H cid eq_refl). congruence.
      + split; [discriminate|]. intros H. specialize (H cid eq_refl). discriminate H.
    - split; [intros _ cid H; discriminate H | reflexivity]. }
  assert (Hsearch_ok : forall p, In p (posts db) ->
            (search_ok p = true <->
             forall term,
               truthy (qp_search qp) = Some term ->
               occurs_ci term (title p) \/ occurs_ci term (content p) \/
               exists u, In u (users db) /\ user_id u = author p /\
                         occurs_ci term (username u))).
  { intros p Hp. unfold search_ok. destruct (truthy (qp_search qp)) as [term|].
    - destruct (find_user_of_id (users db) (author p) (Hauthors p Hp)) as [u0 Hu0].
      destruct (find_user_found _ _ _ Hu0) as [Hin0 Hid0].
      assert (Hname : author_username db p = Some (username u0)).
      { unfold author_username. rewrite Hu0. reflexivity. }
      unfold search_matches. rewrite Hname, !orb_true_iff, !icontains_spec. split.
      + intros H term' Ht. inversion Ht; subst term'.
        destruct H as [[H|H]|H]; [left; exact H | right; left; exact H |].
        right. right. exists u0. repeat split; assumption.
      + intros H. destruct (H term eq_refl) as [Ht|[Hc|[u [Hin [Hid Hocc]]]]].
        * left. left. exact Ht.
        * left. right. exact Hc.
        * right. assert (u = u0).
          { apply (NoDup_map_inj user_id (users db)); try assumption. congruence. }
          subst u. exact Hocc.
    - split; [intros _ term H; discriminate H | reflexivity]. }
  assert (Hsorted : StronglySorted (fun a b => by_published_date nulls_first a b = true)
                                   (filter search_ok (filter cat_ok sorted))).
  { do 2 apply StronglySorted_filter. unfold sorted. apply order_by_sorted.
    - intros a b. apply desc_opt_total.
    - intros a b c. apply desc_opt_trans. }
  assert (Hin : forall p, In p (filter search_ok (filter cat_ok sorted)) <->
                          (In p (posts db) /\ published p = true) /\
                          cat_ok p = true /\ search_ok p = true).
  { intros p. rewrite !filter_In. unfold sorted. rewrite order_by_In, filter_In. tauto. }
  split.
  { unfold BlogPostListView_get_queryset. fold sorted.
    unfold category_supplied in Hcat. unfold search_ok, cat_ok.
    destruct (truthy (qp_category qp)) as [s|].
    - destruct Hcat as [Hconv Hsome]. rewrite Hconv.
      destruct cat as [cid|]; [|congruence].
      destruct (truthy (qp_search qp)); [reflexivity|].
      rewrite filter_true. reflexivity.
    - subst cat. rewrite (filter_true sorted).
      destruct (truthy (qp_search qp)); [reflexivity|].
      rewrite filter_true. reflexivity. }
  split.
  { intros p. rewrite Hin, Hcat_ok. split.
    - intros [[Hp Hpub] [Hc Hs]].
      pose proof (proj1 (Hsearch_ok p Hp) Hs) as Hs'. tauto.
    - intros [Hp [Hpub [Hc Hs]]].
      pose proof (proj2 (Hsearch_ok p Hp) Hs) as Hs'. tauto. }
  split.
  { rewrite Forall_forall. intros p Hp. apply Hin in Hp. tauto. }
  split; [exact Hsorted|].
  apply StronglySorted_weaken with (2 := Hsorted).
  intros a b Hab x y Hx Hy. unfold by_published_date in Hab.
  rewrite Hx, Hy in Hab. apply Z.leb_le, Hab.
Qed.

Lemma sample_db_authors_wf : authors_wf sample_db.
Proof.
  intros p Hp. unfold sample_db in *. simpl in *.
  destruct Hp as [<-|[<-|[<-|[<-|[]]]]]; simpl; tauto.
Defined.

Lemma sample_db_users_wf : users_wf sample_db.
Proof.
  unfold users_wf, sample_db. simpl.
  repeat (constructor; [simpl; intuition discriminate|]); constructor.
Defined.

(** On the sample store: the term "ALI" occurs in no title and in no
    content, only in the username of alice, the author of every post; the
    listing is her three published posts, and her first post is in it
    because of her username. *)
Lemma list_published_filters_witness :
  authors_wf sample_db /\
  users_wf sample_db /\
  category_supplied sample_int_of_param (mkQueryParams None (Some "ALI")) None /\
  BlogPostListView_get_queryset false sample_int_of_param
      (mkQueryParams None (Some "ALI")) sample_db
    = inr [post_scheduled; post_hi; post_old] /\
  icontains (title post_hi) "ALI" || icontains (content post_hi) "ALI" = false /\
  exists l,
    BlogPostListView_get_queryset false sample_int_of_param
        (mkQueryParams None (Some "ALI")) sample_db = inr l /\
    In post_hi l /\ ~ In post_draft l.
Proof.
  split; [exact sample_db_authors_wf|]. split; [exact sample_db_users_wf|].
  assert (Hcat : category_supplied sample_int_of_param
                   (mkQueryParams None (Some "ALI")) None) by reflexivity.
  split; [exact Hcat|]. split; [reflexivity|]. split; [reflexivity|].
  destruct (list_published_filters false sample_int_of_param sample_db
              (mkQueryParams None (Some "ALI")) None
              sample_db_authors_wf sample_db_users_wf Hcat) as [l [Hl [Hin _]]].
  exists l. split; [exact Hl|]. split.
  - apply Hin. split; [left; reflexivity|]. split; [reflexivity|].
    split; [intros cid H; discriminate H|].
    intros term Ht. injection Ht as <-. right. right.
    exists alice. split; [left; reflexivity|]. split; [reflexivity|].
    apply icontains_spec. reflexivity.
  - intros H. apply Hin in H. destruct H as [_ [Hpub _]]. discriminate Hpub.
Defined.

(** ** Latest posts *)

Lemma published_since_spec (t : Z) (p : BlogPost) :
  published_since t p = true <->
  published p = true /\ exists d, published_date p = Some d /\ (t <= d)%Z.
Proof.
  unfold published_since. rewrite andb_true_iff.
  destruct (published_date p) as [d|].
  - rewrite Z.leb_le. split.
    + intros [Hp Hd]. split; [exact Hp | exists d; split; [reflexivity | exact Hd]].
    + intros [Hp [d' [Hd' Hle]]]. inversion Hd'; subst. split; assumption.
  - split.
    + intros [_ H]. discriminate H.
    + intros [_ [d [H _]]]. discriminate H.
Qed.

(** C7 fails on the code, which also breaks its own comment ("Get posts
    from the last 30 days"): the query bounds [published_date] from below
    only, so a stored post with [published = true] whose date lies after
    the request instant is returned whenever at most five posts pass the
    filter, although its date is not within the thirty days that end at
    the request. *)
Theorem latest_keeps_posts_dated_after_now
    (nulls_first : bool) (now : Z) (db : DB) (p : BlogPost) (d : Z)
    (Hp : In p (posts db))
    (Hpub : published p = true)
    (Hdate : published_date p = Some d)
    (Hlater : (now < d)%Z)
    (Hfew : count (published_since (now - thirty_days)) (posts db) <= 5) :
  In p (LatestBlogPostsView_get_queryset nulls_first now db) /\
  ~ (now - thirty_days <= d <= now)%Z.
Proof.
  split; [|lia].
  unfold LatestBlogPostsView_get_queryset.
  rewrite firstn_all2.
  - rewrite order_by_In. apply filter_In. split; [exact Hp|].
    apply published_since_spec. split; [exact Hpub|].
    exists d. split; [exact Hdate|]. unfold thirty_days, day. lia.
  - rewrite (Permutation_length (order_by_perm _ _)). exact Hfew.
Qed.

(** On the sample store, at the instant [now0] (day 100): the post dated
    day 107 is returned, and comes first. *)
Lemma latest_keeps_posts_dated_after_now_witness :
  LatestBlogPostsView_get_queryset false now0 sample_db = [post_scheduled; post_hi] /\
  published_date post_scheduled = Some (107 * day)%Z /\
  In post_scheduled (LatestBlogPostsView_get_queryset false now0 sample_db) /\
  ~ (now0 - thirty_days <= 107 * day <= now0)%Z.
Proof.
  split; [reflexivity|]. split; [reflexivity|].
  apply (latest_keeps_posts_dated_after_now false now0 sample_db post_scheduled
           (107 * day)%Z).
  - right. right. left. reflexivity.
  - reflexivity.
  - reflexivity.
  - reflexivity.
  - vm_compute. repeat constructor.
Defined.

(** X23: [latest] returns at most five posts (five, or all the eligible
    ones when there are fewer), each a stored post with [published = true]
    and a [published_date] no older than thirty days before the request
    instant, in descending order of [published_date]. *)
Theorem latest_capped_published_recent_sorted
    (nulls_first : bool) (now : Z) (db : DB) :
  let l := LatestBlogPostsView_get_queryset nulls_first now db in
  length l <= 5 /\
  length l = Nat.min 5 (count (published_since (now - thirty_days)) (posts db)) /\
  Forall (fun p => In p (posts db) /\ published p = true /\
                   exists d, published_date p = Some d /\ (now - thirty_days <= d)%Z) l /\
  StronglySorted (fun a b => exists x y, published_date a = Some x /\
                                         published_date b = Some y /\ (y <= x)%Z) l.
Proof.
  intros l. unfold l, LatestBlogPostsView_get_queryset.
  set (t := (now - thirty_days)%Z).
  set (sorted := order_by (by_published_date nulls_first)
                          (filter (published_since t) (posts db))).
  assert (Hin : forall p, In p (firstn 5 sorted) ->
                In p (posts db) /\ published_since t p = true).
  { intros p Hp. apply In_firstn in Hp. unfold sorted in Hp.
    rewrite order_by_In in Hp. apply filter_In in Hp. exact Hp. }
  split; [apply firstn_le_length|].
  split.
  { rewrite length_firstn. unfold sorted, count.
    rewrite (Permutation_length (order_by_perm _ _)). reflexivity. }
  split.
  { rewrite Forall_forall. intros p Hp. destruct (Hin p Hp) as [H1 H2].
    apply published_since_spec in H2. tauto. }
  apply StronglySorted_weaken_in
    with (R := fun a b => by_published_date nulls_first a b = true).
  - intros a b Ha Hb Hab.
    destruct (Hin a Ha) as [_ Ha']. destruct (Hin b Hb) as [_ Hb'].
    apply published_since_spec in Ha', Hb'.
    destruct Ha' as [_ [x [Hx _]]]. destruct Hb' as [_ [y [Hy _]]].
    exists x, y. split; [exact Hx|]. split; [exact Hy|].
    unfold by_published_date in Hab. rewrite Hx, Hy in Hab. simpl in Hab.
    apply Z.leb_le, Hab.
  - apply StronglySorted_firstn. unfold sorted. apply order_by_sorted.
    + intros a b. apply desc_opt_total.
    + intros a b c. apply desc_opt_trans.
Qed.

(** ** Derived fields of a post *)

(** C8: in what the serializer renders for a post [P], [comments_count] is
    the number of stored comments on [P] with [approved = true],
    [likes_count] the number of stored likes on [P], [is_liked] is true for
    an authenticated actor [A] iff a like of [P] by [A] is stored, and
    [is_liked] is false for an anonymous caller or a missing request. *)
Theorem post_derived_fields (request : option RequestUser) (db : DB) (P : BlogPost) :
  let r := BlogPostSerializer_data request db P in
  repr_post r = P /\
  comments_count r =
    length (filter (fun c => (comment_post c =? post_id P) && approved c) (comments db)) /\
  likes_count r = length (filter (fun l => like_post l =? post_id P) (likes db)) /\
  (forall A, request = Some (AuthUser A) ->
     (is_liked r = true <->
      exists l, In l (likes db) /\ like_post l = post_id P /\ like_user l = user_id A)) /\
  (request = Some AnonymousUser \/ request = None -> is_liked r = false).
Proof.
  intros r. unfold r. simpl.
  split; [reflexivity|]. split; [reflexivity|]. split; [reflexivity|].
  split.
  - intros A ->. simpl. rewrite exists_spec. split.
    + intros [l [Hl Hf]]. apply andb_true_iff in Hf. destruct Hf as [H1 H2].
      apply Nat.eqb_eq in H1, H2. exists l. tauto.
    + intros [l [Hl [H1 H2]]]. exists l. split; [exact Hl|].
      apply andb_true_iff. rewrite !Nat.eqb_eq. tauto.
  - intros [-> | ->]; reflexivity.
Qed.

(** The derived fields on the sample store: one approved comment out of
    two, one like, liked by bob and by nobody else. *)
Example post_hi_rendered :
  BlogPostSerializer_data (Some (AuthUser bob)) sample_db post_hi
    = mkPostRepr post_hi 1 1 true /\
  BlogPostSerializer_data (Some (AuthUser alice)) sample_db post_hi
    = mkPostRepr post_hi 1 1 false /\
  BlogPostSerializer_data (Some AnonymousUser) sample_db post_hi
    = mkPostRepr post_hi 1 1 false.
Proof. repeat split. Qed.

(** ** Approval *)

(** C9: for an admin actor and a stored comment, approval succeeds and
    leaves the comment with [approved = true]; approving again succeeds and
    changes nothing, as does approving a comment that was approved before;
    the [comments_count] of the comment's post goes up by exactly one when
    the comment was not yet approved, and keeps that value on a repeated
    approval. *)
Theorem approve_idempotent_counts_once (db : DB) (u : User) (profile : UserProfile)
    (pk : nat) (c : Comment) (P : BlogPost)
    (Hprofile : get_profile db (AuthUser u) = inr profile)
    (Hadmin : is_blog_admin profile = true)
    (Hc : get_object_or_404 (fun x => comment_id x =? pk) (comments db) = inr c)
    (HP : post_id P = comment_post c) :
  let ru := AuthUser u in
  let db1 := fst (ApproveCommentView_dispatch ru pk db) in
  let db2 := fst (ApproveCommentView_dispatch ru pk db1) in
  ApproveCommentView_dispatch ru pk db = (db1, inr "comment approved") /\
  get_object_or_404 (fun x => comment_id x =? pk) (comments db1) = inr (set_approved c) /\
  approved (set_approved c) = true /\
  ApproveCommentView_dispatch ru pk db1 = (db1, inr "comment approved") /\
  db2 = db1 /\
  (approved c = true -> db1 = db) /\
  get_comments_count db1 P
    = (if approved c then get_comments_count db P else S (get_comments_count db P)) /\
  get_comments_count db2 P = get_comments_count db1 P.
Proof.
  intros ru db1 db2. subst ru.
  pose proof Hc as Hfilter. apply get_object_or_404_inr in Hfilter.
  destruct (get_object_or_404_found _ _ _ Hc) as [_ Hpk]. apply Nat.eqb_eq in Hpk.
  set (upd := fun x => if comment_id x =? pk then set_approved c else x).
  assert (Happrove : forall db0 c0,
            get_profile db0 (AuthUser u) = inr profile ->
            get_object_or_404 (fun x => comment_id x =? pk) (comments db0) = inr c0 ->
            comment_id c0 = pk ->
            ApproveCommentView_dispatch (AuthUser u) pk db0
            = (set_comments (map (fun x => if comment_id x =? pk
                                           then set_approved c0 else x)) db0,
               inr "comment approved")).
  { intros db0 c0 H1 H2 H3.
    unfold ApproveCommentView_dispatch, ApproveCommentView_patch, comment_get_object.
    run. cbn [check_permissions has_permission is_authenticated].
    rewrite H1, Hadmin. cbn [negb]. rewrite H2. cbn [set_approved comment_id].
    rewrite H3. reflexivity. }
  assert (H1 : db1 = set_comments (map upd) db).
  { unfold db1. rewrite (Happrove db c Hprofile Hc Hpk). reflexivity. }
  assert (Hc1 : get_object_or_404 (fun x => comment_id x =? pk) (comments db1)
                = inr (set_approved c)).
  { rewrite H1. simpl. apply get_object_or_404_inr.
    apply filter_update with (c := c); [exact Hfilter|].
    simpl. apply Nat.eqb_eq, Hpk. }
  assert (Hp1 : get_profile db1 (AuthUser u) = inr profile).
  { rewrite H1. exact Hprofile. }
  assert (H2 : ApproveCommentView_dispatch (AuthUser u) pk db1
               = (db1, inr "comment approved")).
  { rewrite (Happrove db1 (set_approved c) Hp1 Hc1 Hpk).
    f_equal. rewrite H1. unfold set_comments. simpl. f_equal.
    apply (update_twice (fun x => comment_id x =? pk) (set_approved c)).
    simpl. apply Nat.eqb_eq, Hpk. }
  assert (H3 : db2 = db1). { unfold db2. rewrite H2. reflexivity. }
  split. { rewrite H1. apply (Happrove db c Hprofile Hc Hpk). }
  split; [exact Hc1|].
  split; [reflexivity|].
  split; [exact H2|].
  split; [exact H3|].
  split.
  { intros Happ. rewrite H1. unfold set_comments, upd.
    rewrite (set_approved_approved c Happ).
    rewrite (update_same (fun x => comment_id x =? pk) c (comments db) Hfilter).
    destruct db; reflexivity. }
  split; [|rewrite H3; reflexivity].
  rewrite H1. unfold get_comments_count, count. simpl.
  pose proof (length_filter_update (fun x => comment_id x =? pk) c (set_approved c)
                (fun x => (comment_post x =? post_id P) && approved x)
                (comments db) Hfilter) as Hlen.
  simpl in Hlen. rewrite HP, Nat.eqb_refl in Hlen. simpl in Hlen.
  rewrite HP. unfold upd.
  destruct (approved c); simpl in Hlen; lia.
Qed.

(** On the sample store: alice approves
    bob's pending comment on her post, whose count goes from one to two. *)
Lemma approve_idempotent_counts_once_witness :
  get_profile sample_db (AuthUser alice) = inr (mkProfile 1 true) /\
  is_blog_admin (mkProfile 1 true) = true /\
  get_object_or_404 (fun x => comment_id x =? 1) (comments sample_db) = inr comment_pending /\
  post_id post_hi = comment_post comment_pending /\
  get_comments_count sample_db post_hi = 1 /\
  get_comments_count (fst (ApproveCommentView_dispatch (AuthUser alice) 1 sample_db)) post_hi
    = 2.
Proof.
  repeat (split; [reflexivity|]).
  apply (approve_idempotent_counts_once sample_db alice (mkProfile 1 true) 1
           comment_pending post_hi eq_refl eq_refl eq_refl eq_refl).
Defined.

(** ** Comment creation *)

(** C10: for every authenticated actor, stored post and request body with
    a content, the comment-creation interface stores one comment whose
    author is the actor and whose post is the post of the URL, whatever
    [author] and [post] the body carries, and whose [approved] is the
    body's value (false when the body has none); so some body makes the
    actor, admin or not, create a comment that is approved from the start
    and shows in the post's listing. *)
Theorem comment_create_fields (db : DB) (u : User) (pid : nat) (post : BlogPost)
    (body : CommentBody) (text : string) (now : Z)
    (Hpost : get_object_or_404 (fun p => post_id p =? pid) (posts db) = inr post)
    (Hcontent : cb_content body = Some text) :
  let ru := AuthUser u in
  let c := mkComment (next_pk (map comment_id (comments db))) pid (user_id u) text now
                     (dflt (cb_approved body) false) in
  CommentListView_post ru pid body now db = (set_comments (fun l => l ++ [c]) db, inr c) /\
  comment_author c = user_id u /\
  comment_post c = pid /\
  approved c = dflt (cb_approved body) false /\
  exists body' c',
    snd (CommentListView_post ru pid body' now db) = inr c' /\
    approved c' = true /\
    In c' (CommentListView_get_queryset pid (fst (CommentListView_post ru pid body' now db))).
Proof.
  intros ru c. subst ru.
  destruct (get_object_or_404_found _ _ _ Hpost) as [_ Hpid]. apply Nat.eqb_eq in Hpid.
  assert (Hrun : forall b t,
            cb_content b = Some t ->
            CommentListView_post (AuthUser u) pid b now db
            = (set_comments
                 (fun l => l ++ [mkComment (next_pk (map comment_id (comments db))) pid
                                           (user_id u) t now (dflt (cb_approved b) false)]) db,
               inr (mkComment (next_pk (map comment_id (comments db))) pid
                              (user_id u) t now (dflt (cb_approved b) false)))).
  { intros b t Hb.
    unfold CommentListView_post, CommentListView_perform_create, post_get_object,
      CommentSerializer_validate.
    run. cbn [check_permissions has_permission is_authenticated].
    rewrite Hb, Hpost, Hpid. reflexivity. }
  split; [apply Hrun, Hcontent|].
  split; [reflexivity|]. split; [reflexivity|]. split; [reflexivity|].
  set (body' := mkCommentBody (cb_post body) (cb_author body) (Some text) None (Some true)).
  exists body'. eexists.
  rewrite (Hrun body' text eq_refl). cbn [fst snd cb_approved dflt].
  split; [reflexivity|]. split; [reflexivity|].
  unfold CommentListView_get_queryset. rewrite order_by_In, filter_In.
  cbn [comments set_comments comment_post approved]. split.
  - apply in_or_app. right. left. reflexivity.
  - rewrite Nat.eqb_refl. reflexivity.
Qed.

(** On the sample store: bob, who holds no admin
    flag, posts a body that names alice as author, another post and
    [approved = true]; the stored comment is bob's, on the post of the URL,
    and approved. *)
Lemma comment_create_fields_witness :
  get_object_or_404 (fun p => post_id p =? 1) (posts sample_db) = inr post_hi /\
  cb_content (mkCommentBody (Some 4) (Some 1) (Some "nice") None (Some true)) = Some "nice" /\
  get_profile sample_db (AuthUser bob) = inr (mkProfile 2 false) /\
  snd (CommentListView_post (AuthUser bob) 1
         (mkCommentBody (Some 4) (Some 1) (Some "nice") None (Some true)) now0 sample_db)
    = inr (mkComment 3 1 2 "nice" now0 true).
Proof.
  repeat (split; [reflexivity|]).
  pose proof (comment_create_fields sample_db bob 1 post_hi
                (mkCommentBody (Some 4) (Some 1) (Some "nice") None (Some true))
                "nice" now0 eq_refl eq_refl) as H.
  destruct H as [H _]. rewrite H. reflexivity.
Defined.

(** * Further properties *)

(** ** Anonymous callers *)




(** ** Primary keys *)

Lemma NoDup_map_filter {A B} (f : A -> B) (g : A -> bool) (l : list A) :
  NoDup (map f l) -> NoDup (map f (filter g l)).
Proof.
  induction l as [|x l IH]; simpl; [trivial|].
  intros H. inversion H as [|y ys Hx Hl]; subst.
  destruct (g x); [|apply IH, Hl].
  simpl. constructor; [|apply IH, Hl].
  intros Hin. apply Hx. apply in_map_iff in Hin. destruct Hin as [z [Hz Hin]].
  apply filter_In in Hin. rewrite <- Hz. apply in_map, Hin.
Qed.

(** ** Registration, continued *)

Lemma register_errors_nil (column_errors : RegisterData -> list (string * string))
    (db : DB) (d : RegisterData) :
  UserRegisterSerializer_errors column_errors db d = [] ->
  exists n pw e f l,
    rd_username d = Some n /\ rd_password d = Some pw /\ rd_email d = Some e /\
    rd_first_name d = Some f /\ rd_last_name d = Some l /\
    exists_ (fun u => String.eqb (username u) n) (users db) = false /\
    column_errors d = [].
Proof.
  unfold UserRegisterSerializer_errors, username_taken, required.
  destruct (rd_username d) as [n|]; [|discriminate].
  destruct (exists_ _ (users db)) eqn:E; [discriminate|].
  destruct (rd_password d) as [pw|]; [|discriminate].
  destruct (rd_email d) as [e|]; [|discriminate].
  destruct (rd_first_name d) as [f|]; [|discriminate].
  destruct (rd_last_name d) as [l|]; [|discriminate].
  simpl. intros H. exists n, pw, e, f, l. repeat split; try reflexivity; assumption.
Qed.

Lemma username_not_taken (db : DB) (n : string) :
  exists_ (fun u => String.eqb (username u) n) (users db) = false ->
  ~ In n (map username (users db)).
Proof.
  intros Hex Hin. apply in_map_iff in Hin. destruct Hin as [u [Hu Hin]].
  assert (H : exists_ (fun u => String.eqb (username u) n) (users db) = true).
  { apply exists_spec. exists u. split; [exact Hin|]. apply String.eqb_eq, Hu. }
  congruence.
Qed.

(** X3: registration keeps usernames distinct: over a store without two
    users of one username, whatever is submitted, the store after the
    request has none either. *)
Theorem register_keeps_usernames_unique
    (column_errors : RegisterData -> list (string * string)) (db : DB) (d : RegisterData)
    (Hwf : usernames_wf db) :
  usernames_wf (fst (UserRegisterView_post column_errors d db)).
Proof.
  rewrite register_post_unfold.
  destruct (UserRegisterSerializer_errors column_errors db d) as [|e es] eqn:E;
    [|exact Hwf].
  destruct (register_errors_nil _ _ _ E) as [n [pw [em [f [l [Hn [_ [_ [_ [_ [Hfree _]]]]]]]]]]].
  unfold usernames_wf. cbn [fst users set_profiles set_users].
  rewrite map_app. apply NoDup_snoc; [exact Hwf|].
  cbn [map username]. rewrite Hn. cbn [dflt]. apply username_not_taken, Hfree.
Qed.

Lemma sample_db_usernames_wf : usernames_wf sample_db.
Proof.
  unfold usernames_wf, sample_db. simpl.
  repeat (constructor; [simpl; intuition discriminate|]); constructor.
Defined.

(** On the sample store, a second "bob" is turned away and the usernames
    stay distinct. *)
Lemma register_keeps_usernames_unique_witness :
  usernames_wf sample_db /\
  usernames_wf (fst (UserRegisterView_post no_column_errors
                       (mkRegisterData (Some "bob") (Some "pw") (Some "b@example.org")
                                       (Some "B") (Some "B") None) sample_db)).
Proof.
  split; [exact sample_db_usernames_wf|].
  apply (register_keeps_usernames_unique no_column_errors sample_db _ sample_db_usernames_wf).
Defined.

Lemma no_profile_for_next_pk (db : DB) :
  profiles_wf db ->
  filter (fun p => profile_user p =? next_pk (map user_id (users db))) (profiles db) = [].
Proof.
  intros Hwf. apply exists_false_filter.
  destruct (exists_ _ (profiles db)) eqn:E; [|reflexivity].
  apply exists_spec in E. destruct E as [p [Hp Heq]].
  apply Nat.eqb_eq in Heq. apply Hwf in Hp. rewrite Heq in Hp.
  exfalso. apply (next_pk_fresh (map user_id (users db))). exact Hp.
Qed.



(** ** Likes, continued *)

Lemma filter_pk_below_next {A} (key : A -> nat) (l : list A) :
  filter (fun y => negb (key y =? next_pk (map key l))) l = l.
Proof.
  transitivity (filter (fun _ => true) l); [|apply filter_true].
  apply filter_ext_in. intros y Hy.
  apply negb_true_iff, Nat.eqb_neq. intros H.
  apply (next_pk_fresh (map key l)). rewrite <- H. apply in_map, Hy.
Qed.

Lemma set_likes_same (db : DB) : set_likes (fun _ => likes db) db = db.
Proof. destruct db; reflexivity. Qed.

(** X5: liking and unliking are a round trip: when an authenticated actor
    has not liked a stored post, the like succeeds, makes [is_liked] true
    for that actor and raises [likes_count] by one, and the unlike that
    follows gives back the store as it was before the like. *)
Theorem like_then_unlike_restores (db : DB) (u : User) (pid : nat) (post : BlogPost)
    (now : Z)
    (Hpost : get_object_or_404 (fun p => post_id p =? pid) (posts db) = inr post)
    (Hfree : exists_ (like_of pid (AuthUser u)) (likes db) = false) :
  let ru := AuthUser u in
  let db1 := fst (LikeCreateView_post ru pid now db) in
  succeeded (LikeCreateView_post ru pid now db) = true /\
  get_is_liked (Some ru) db post = false /\
  get_is_liked (Some ru) db1 post = true /\
  get_likes_count db1 post = S (get_likes_count db post) /\
  LikeDeleteView_delete ru pid db1 = (db, inr tt).
Proof.
  intros ru db1. subst ru.
  destruct (get_object_or_404_found _ _ _ Hpost) as [_ Hpid]. apply Nat.eqb_eq in Hpid.
  pose proof Hfree as Hnone. apply exists_false_filter in Hnone.
  set (l := mkLike (next_pk (map like_id (likes db))) pid (user_id u) now).
  assert (Hcreate : LikeCreateView_post (AuthUser u) pid now db
                    = (set_likes (fun rows => rows ++ [l]) db, inr l)).
  { unfold LikeCreateView_post, LikeCreateView_perform_create, post_get_object, likes_filter.
    run. cbn [check_permissions has_permission is_authenticated].
    rewrite Hpost, Hpid, Hnone. reflexivity. }
  assert (Hl : like_of pid (AuthUser u) l = true).
  { unfold like_of, same_user, l. cbn [like_post like_user]. rewrite !Nat.eqb_refl.
    reflexivity. }
  unfold db1. rewrite Hcreate. cbn [fst].
  split; [reflexivity|].
  unfold get_is_liked, get_likes_count, count. rewrite Hpid.
  assert (Hsym : forall rows,
            exists_ (fun l0 => (like_post l0 =? pid) && (like_user l0 =? user_id u)) rows
            = exists_ (like_of pid (AuthUser u)) rows).
  { intros rows. unfold exists_.
    rewrite (filter_ext _ (like_of pid (AuthUser u))); [reflexivity|].
    intros x. unfold like_of, same_user. rewrite (Nat.eqb_sym (like_user x)). reflexivity. }
  rewrite !Hsym. split; [exact Hfree|].
  split.
  { apply exists_spec. exists l. split; [|exact Hl].
    cbn [likes set_likes]. apply in_or_app. right. left. reflexivity. }
  split.
  { cbn [likes set_likes]. rewrite filter_app, length_app. cbn [filter].
    unfold l at 1. cbn [like_post]. rewrite Nat.eqb_refl. simpl. lia. }
  unfold LikeDeleteView_delete, LikeDeleteView_get_object, post_get_object.
  run. cbn [check_permissions has_permission is_authenticated posts set_likes].
  rewrite Hpost, Hpid.
  assert (Hfound : get_object_or_404 (like_of pid (AuthUser u)) (likes db ++ [l]) = inr l).
  { apply get_object_or_404_inr. rewrite filter_app, Hnone. cbn [filter app].
    rewrite Hl. reflexivity. }
  change (likes (set_likes (fun rows => rows ++ [l]) db)) with (likes db ++ [l]).
  rewrite Hfound. f_equal.
  unfold set_likes. cbn [users profiles categories posts comments likes].
  rewrite filter_app. unfold l at 1. cbn [like_id].
  rewrite (filter_pk_below_next like_id (likes db)).
  cbn [filter like_id]. unfold l. cbn [like_id]. rewrite Nat.eqb_refl. cbn [negb].
  rewrite app_nil_r. destruct db; reflexivity.
Qed.

(** On the sample store: alice has not liked her post; she likes it and
    unlikes it, and the store is the sample store again. *)
Lemma like_then_unlike_restores_witness :
  get_object_or_404 (fun p => post_id p =? 1) (posts sample_db) = inr post_hi /\
  exists_ (like_of 1 (AuthUser alice)) (likes sample_db) = false /\
  LikeDeleteView_delete (AuthUser alice) 1
      (fst (LikeCreateView_post (AuthUser alice) 1 now0 sample_db))
    = (sample_db, inr tt).
Proof.
  split; [reflexivity|]. split; [reflexivity|].
  apply (like_then_unlike_restores sample_db alice 1 post_hi now0 eq_refl eq_refl).
Defined.

(** ** Comments, continued *)

(** X6: a comment created without [approved = true] in its body stays out
    of sight: the creation succeeds, and afterwards the listing of every
    post and the [comments_count] of every post are what they were. *)
Theorem unapproved_comment_is_not_shown (db : DB) (u : User) (pid : nat)
    (post : BlogPost) (body : CommentBody) (text : string) (now : Z)
    (Hpost : get_object_or_404 (fun p => post_id p =? pid) (posts db) = inr post)
    (Hcontent : cb_content body = Some text)
    (Hflag : cb_approved body <> Some true) :
  let r := CommentListView_post (AuthUser u) pid body now db in
  succeeded r = true /\
  length (comments (fst r)) = S (length (comments db)) /\
  (forall pid', CommentListView_get_queryset pid' (fst r)
                = CommentListView_get_queryset pid' db) /\
  (forall P, get_comments_count (fst r) P = get_comments_count db P).
Proof.
  intros r.
  destruct (get_object_or_404_found _ _ _ Hpost) as [_ Hpid]. apply Nat.eqb_eq in Hpid.
  assert (Hfalse : dflt (cb_approved body) false = false).
  { destruct (cb_approved body) as [[|]|]; [congruence | reflexivity | reflexivity]. }
  assert (Hr : r = (set_comments
                      (fun l => l ++ [mkComment (next_pk (map comment_id (comments db)))
                                                pid (user_id u) text now false]) db,
                    inr (mkComment (next_pk (map comment_id (comments db)))
                                   pid (user_id u) text now false))).
  { unfold r, CommentListView_post, CommentListView_perform_create, post_get_object,
      CommentSerializer_validate.
    run. cbn [check_permissions has_permission is_authenticated].
    rewrite Hcontent, Hpost, Hpid.
    unfold apply_comment_data. cbn [cd_content cd_approved dflt comment_id comment_post
      comment_author comment_content comment_created_at approved].
    rewrite Hfalse. reflexivity. }
  rewrite Hr. cbn [fst comments set_comments].
  split; [reflexivity|].
  split. { rewrite length_app. simpl. lia. }
  split.
  - intros pid'. unfold CommentListView_get_queryset.
    cbn [comments set_comments]. rewrite filter_app. cbn [filter approved].
    rewrite andb_false_r, app_nil_r. reflexivity.
  - intros P. unfold get_comments_count, count.
    cbn [comments set_comments]. rewrite filter_app. cbn [filter approved].
    rewrite andb_false_r, app_nil_r. reflexivity.
Qed.

(** On the sample store: bob comments on alice's post without a flag; the
    post still counts one comment. *)
Lemma unapproved_comment_is_not_shown_witness :
  get_object_or_404 (fun p => post_id p =? 1) (posts sample_db) = inr post_hi /\
  cb_content (mkCommentBody None None (Some "third") None None) = Some "third" /\
  cb_approved (mkCommentBody None None (Some "third") None None) <> Some true /\
  get_comments_count
    (fst (CommentListView_post (AuthUser bob) 1
            (mkCommentBody None None (Some "third") None None) now0 sample_db)) post_hi
    = get_comments_count sample_db post_hi.
Proof.
  split; [reflexivity|]. split; [reflexivity|].
  assert (Hflag : cb_approved (mkCommentBody None None (Some "third") None None)
                  <> Some true) by discriminate.
  split; [exact Hflag|].
  apply (unapproved_comment_is_not_shown sample_db bob 1 post_hi
           (mkCommentBody None None (Some "third") None None) "third" now0
           eq_refl eq_refl Hflag).
Defined.

(** X7: the approve URL answers [PUT] without asking for the admin flag:
    for every authenticated actor, whatever the actor's profile and
    whoever wrote the comment, a [PUT] on the approve URL of a stored,
    unapproved comment with a body that carries a content and
    [approved = true] succeeds, stores the comment as approved with the
    body's content and its id, post, author and creation time unchanged,
    shows it in the post's listing and raises the post's [comments_count]
    by one. *)
Theorem approve_url_put_needs_no_admin (db : DB) (u : User) (pk : nat) (c : Comment)
    (P : BlogPost) (body : CommentBody) (text : string)
    (Hc : get_object_or_404 (fun x => comment_id x =? pk) (comments db) = inr c)
    (Hpending : approved c = false)
    (HP : post_id P = comment_post c)
    (Hbody : cb_content body = Some text /\ cb_approved body = Some true) :
  let r := ApproveCommentView_put (AuthUser u) pk body db in
  let c' := mkComment (comment_id c) (comment_post c) (comment_author c) text
                      (comment_created_at c) true in
  snd r = inr c' /\
  get_object_or_404 (fun x => comment_id x =? pk) (comments (fst r)) = inr c' /\
  In c' (CommentListView_get_queryset (comment_post c) (fst r)) /\
  get_comments_count (fst r) P = S (get_comments_count db P).
Proof.
  intros r c'. destruct Hbody as [Hb1 Hb2].
  pose proof Hc as Hfilter. apply get_object_or_404_inr in Hfilter.
  destruct (get_object_or_404_found _ _ _ Hc) as [Hin Hpk]. apply Nat.eqb_eq in Hpk.
  assert (Hr : r = (set_comments (map (fun x => if comment_id x =? pk then c' else x)) db,
                    inr c')).
  { unfold r, ApproveCommentView_put, comment_get_object, CommentSerializer_validate.
    run. cbn [check_permissions has_permission is_authenticated].
    rewrite Hc, Hb1. unfold apply_comment_data.
    cbn [cd_content cd_approved dflt]. rewrite Hb2. cbn [dflt]. fold c'.
    rewrite Hpk. reflexivity. }
  rewrite Hr. cbn [fst snd comments set_comments].
  assert (Hlookup : filter (fun x => comment_id x =? pk)
                      (map (fun x => if comment_id x =? pk then c' else x) (comments db))
                    = [c']).
  { apply filter_update with (c := c); [exact Hfilter|].
    unfold c'. cbn [comment_id]. apply Nat.eqb_eq, Hpk. }
  split; [reflexivity|].
  split; [apply get_object_or_404_inr, Hlookup|].
  split.
  { unfold CommentListView_get_queryset. rewrite order_by_In, filter_In.
    cbn [comments set_comments]. split.
    - assert (Hm : In c' (filter (fun x => comment_id x =? pk)
                      (map (fun x => if comment_id x =? pk then c' else x) (comments db))))
        by (rewrite Hlookup; left; reflexivity).
      apply filter_In in Hm. apply Hm.
    - unfold c'. cbn [comment_post approved]. rewrite Nat.eqb_refl. reflexivity. }
  unfold get_comments_count, count. cbn [comments set_comments].
  pose proof (length_filter_update (fun x => comment_id x =? pk) c c'
                (fun x => (comment_post x =? post_id P) && approved x)
                (comments db) Hfilter) as Hlen.
  unfold c' in Hlen at 2. cbn [comment_post approved] in Hlen.
  rewrite Hpending, HP, Nat.eqb_refl in Hlen. simpl in Hlen.
  rewrite HP. fold c'. lia.
Qed.

(** On the sample store: carol, who has no admin flag and did not write
    it, approves bob's pending comment through [PUT] on the approve URL;
    alice's post then counts two comments. *)
Lemma approve_url_put_needs_no_admin_witness :
  get_profile sample_db (AuthUser carol) = inr (mkProfile 3 false) /\
  get_object_or_404 (fun x => comment_id x =? 1) (comments sample_db) = inr comment_pending /\
  comment_author comment_pending <> user_id carol /\
  approved comment_pending = false /\
  get_comments_count
    (fst (ApproveCommentView_put (AuthUser carol) 1
            (mkCommentBody None None (Some "first") None (Some true)) sample_db)) post_hi = 2.
Proof.
  split; [reflexivity|]. split; [reflexivity|].
  split; [discriminate|]. split; [reflexivity|].
  apply (approve_url_put_needs_no_admin sample_db carol 1 comment_pending post_hi
           (mkCommentBody None None (Some "first") None (Some true)) "first"
           eq_refl eq_refl eq_refl (conj eq_refl eq_refl)).
Defined.

(** ** Listings, continued *)

Lemma truthy_some (o : option string) (s : string) :
  truthy o = Some s <-> o = Some s /\ s <> EmptyString.
Proof.
  destruct o as [[|a t]|]; simpl; split.
  - discriminate.
  - intros [H Hne]. inversion H; subst. congruence.
  - intros H. inversion H; subst. split; [reflexivity | discriminate].
  - intros [H _]. exact H.
  - discriminate.
  - intros [H _]. discriminate H.
Qed.

(** X10: the query parameters of the published listing only narrow it.
    Without parameters, or with empty ones, the listing is all the
    published posts; a category parameter that does not convert raises
    [ValueError] whatever the search term; and whatever the parameters, a
    listing that is returned holds only posts of the listing without
    parameters. *)
Theorem list_published_parameters_narrow (nulls_first : bool)
    (int_of_param : string -> option nat) (db : DB) (qp : QueryParams) :
  let all := order_by (by_published_date nulls_first) (filter published (posts db)) in
  BlogPostListView_get_queryset nulls_first int_of_param (mkQueryParams None None) db
    = inr all /\
  BlogPostListView_get_queryset nulls_first int_of_param
      (mkQueryParams (Some "") (Some "")) db = inr all /\
  Permutation all (filter published (posts db)) /\
  (forall s, truthy (qp_category qp) = Some s -> int_of_param s = None ->
     BlogPostListView_get_queryset nulls_first int_of_param qp db = inl ValueError) /\
  (forall l, BlogPostListView_get_queryset nulls_first int_of_param qp db = inr l ->
     incl l all /\ length l <= length all).
Proof.
  intros all. split; [reflexivity|]. split; [reflexivity|].
  split; [apply order_by_perm|].
  unfold BlogPostListView_get_queryset. fold all. split.
  - intros s Hs Hbad. rewrite Hs, Hbad. reflexivity.
  - intros l Hl.
    assert (Hsub : forall (f : BlogPost -> bool) (xs : list BlogPost),
              incl (filter f xs) xs /\ length (filter f xs) <= length xs).
    { intros f xs. split.
      - intros x Hx. apply filter_In in Hx. apply Hx.
      - induction xs as [|x xs IH]; simpl; [lia|]. destruct (f x); simpl; lia. }
    destruct (truthy (qp_category qp)) as [s|].
    + destruct (int_of_param s) as [cid|]; [|discriminate].
      destruct (truthy (qp_search qp)) as [term|]; injection Hl as <-.
      * destruct (Hsub (search_matches db term) (filter (in_category cid) all)) as [H1 H2].
        destruct (Hsub (in_category cid) all) as [H3 H4].
        split; [intros x Hx; apply H3, H1, Hx | lia].
      * apply Hsub.
    + destruct (truthy (qp_search qp)) as [term|]; injection Hl as <-.
      * apply Hsub.
      * split; [apply incl_refl | lia].
Qed.

(** X12: for an admin actor the admin listing returns exactly the stored
    posts that the actor wrote, published or not, newest creation first,
    each rendered with its derived fields; the posts of other authors are
    never in it. *)
Theorem admin_listing_is_own_posts (db : DB) (u : User) (profile : UserProfile)
    (Hprofile : get_profile db (AuthUser u) = inr profile)
    (Hadmin : is_blog_admin profile = true) :
  exists l,
    AdminBlogPostsView_get_queryset (AuthUser u) db = inr l /\
    AdminBlogPostsView_get (AuthUser u) db
      = (db, inr (map (BlogPostSerializer_data (Some (AuthUser u)) db) l)) /\
    Permutation l (filter (fun p => user_id u =? author p) (posts db)) /\
    (forall p, In p l <-> In p (posts db) /\ author p = user_id u) /\
    StronglySorted (fun a b => (created_at b <= created_at a)%Z) l.
Proof.
  exists (order_by (desc_Z created_at) (filter (fun p => user_id u =? author p) (posts db))).
  assert (Hq : AdminBlogPostsView_get_queryset (AuthUser u) db
               = inr (order_by (desc_Z created_at)
                               (filter (fun p => user_id u =? author p) (posts db)))).
  { unfold AdminBlogPostsView_get_queryset. rewrite Hprofile, Hadmin. reflexivity. }
  split; [exact Hq|].
  split.
  { unfold AdminBlogPostsView_get. run.
    cbn [check_permissions has_permission is_authenticated]. rewrite Hq. reflexivity. }
  split; [apply order_by_perm|].
  split.
  { intros p. rewrite order_by_In, filter_In, Nat.eqb_eq. intuition congruence. }
  apply StronglySorted_weaken with (R := fun a b => desc_Z created_at a b = true).
  - intros a b H. apply Z.leb_le, H.
  - apply order_by_sorted.
    + intros a b. apply desc_Z_total.
    + intros a b c. apply desc_Z_trans.
Qed.

(** On the sample store: alice's listing has her four posts, the draft
    among them, newest first. *)
Lemma admin_listing_is_own_posts_witness :
  get_profile sample_db (AuthUser alice) = inr (mkProfile 1 true) /\
  AdminBlogPostsView_get_queryset (AuthUser alice) sample_db
    = inr [post_scheduled; post_draft; post_hi; post_old] /\
  exists l, AdminBlogPostsView_get_queryset (AuthUser alice) sample_db = inr l /\
            Permutation l (filter (fun p => user_id alice =? author p) (posts sample_db)).
Proof.
  split; [reflexivity|]. split; [reflexivity|].
  destruct (admin_listing_is_own_posts sample_db alice (mkProfile 1 true) eq_refl eq_refl)
    as [l [H1 [_ [H3 _]]]].
  exists l. split; assumption.
Defined.

(** X13: the latest posts are taken from the published listing: every post
    that [latest] returns is in the published listing without
    parameters. *)
Theorem latest_within_published_listing (nulls_first : bool)
    (int_of_param : string -> option nat) (now : Z) (db : DB) :
  exists all,
    BlogPostListView_get_queryset nulls_first int_of_param (mkQueryParams None None) db
      = inr all /\
    incl (LatestBlogPostsView_get_queryset nulls_first now db) all.
Proof.
  eexists. split; [reflexivity|].
  intros p Hp. unfold LatestBlogPostsView_get_queryset in Hp.
  apply In_firstn in Hp. rewrite order_by_In in Hp. apply filter_In in Hp.
  destruct Hp as [Hin Hsince]. apply published_since_spec in Hsince.
  rewrite order_by_In. apply filter_In. tauto.
Qed.

(** ** Dashboard *)

Lemma count_on_posts_split (ru : RequestUser) (db : DB) :
  count_on_posts_of ru (fun _ => true) db
  = count_on_posts_of ru (fun c => negb (approved c)) db + count_on_posts_of ru approved db.
Proof.
  unfold count_on_posts_of. induction (comments db) as [|c cs IH]; simpl; [reflexivity|].
  rewrite !length_app, IH. destruct (approved c); simpl; lia.
Qed.

Lemma count_conj_le {A} (f g : A -> bool) (l : list A) :
  count (fun x => f x && g x) l <= count f l.
Proof.
  unfold count. induction l as [|x l IH]; simpl; [lia|].
  destruct (f x), (g x); simpl; lia.
Qed.

(** X14: the admin dashboard reads the store without changing it, and its
    counts hang together: the published posts are among the total posts,
    the total is the length of the admin listing, and the comments on the
    admin's posts are the pending ones plus the approved ones. *)
Theorem dashboard_admin_counts (db : DB) (u : User) (profile : UserProfile)
    (Hprofile : get_profile db (AuthUser u) = inr profile)
    (Hadmin : is_blog_admin profile = true) :
  exists total published all_comments pending own,
    DashboardView_get (AuthUser u) db
      = (db, inr (AdminStats total published all_comments pending)) /\
    published <= total /\
    AdminBlogPostsView_get_queryset (AuthUser u) db = inr own /\
    total = length own /\
    all_comments = pending + count_on_posts_of (AuthUser u) approved db.
Proof.
  exists (count (fun p => same_user (AuthUser u) (author p)) (posts db)),
         (count (fun p => same_user (AuthUser u) (author p) && published p) (posts db)),
         (count_on_posts_of (AuthUser u) (fun _ => true) db),
         (count_on_posts_of (AuthUser u) (fun c => negb (approved c)) db),
         (order_by (desc_Z created_at)
                   (filter (fun p => same_user (AuthUser u) (author p)) (posts db))).
  split.
  { unfold DashboardView_get. run.
    cbn [check_permissions has_permission is_authenticated].
    rewrite Hprofile, Hadmin. reflexivity. }
  split; [apply count_conj_le|].
  split.
  { unfold AdminBlogPostsView_get_queryset. rewrite Hprofile, Hadmin. reflexivity. }
  split.
  { unfold count. symmetry. apply Permutation_length, order_by_perm. }
  apply count_on_posts_split.
Qed.

(** On the sample store: alice has four posts, three of them published,
    and two comments on them, one pending. *)
Lemma dashboard_admin_counts_witness :
  get_profile sample_db (AuthUser alice) = inr (mkProfile 1 true) /\
  DashboardView_get (AuthUser alice) sample_db = (sample_db, inr (AdminStats 4 3 2 1)) /\
  exists total published all_comments pending own,
    DashboardView_get (AuthUser alice) sample_db
      = (sample_db, inr (AdminStats total published all_comments pending)) /\
    published <= total /\
    AdminBlogPostsView_get_queryset (AuthUser alice) sample_db = inr own /\
    total = length own /\
    all_comments = pending + count_on_posts_of (AuthUser alice) approved sample_db.
Proof.
  split; [reflexivity|]. split; [reflexivity|].
  apply (dashboard_admin_counts sample_db alice (mkProfile 1 true) eq_refl eq_refl).
Defined.

(** X15: the user dashboard follows the user's actions: for an actor
    without the admin flag, a like of a stored post that the actor had not
    liked raises [liked_posts] by one and leaves [comments_made], and a
    comment on a stored post raises [comments_made] by one and leaves
    [liked_posts]. *)
Theorem dashboard_user_counts_follow (db : DB) (u : User) (profile : UserProfile)
    (pid : nat) (post : BlogPost) (body : CommentBody) (text : string) (now : Z)
    (Hprofile : get_profile db (AuthUser u) = inr profile)
    (Hplain : is_blog_admin profile = false)
    (Hpost : get_object_or_404 (fun p => post_id p =? pid) (posts db) = inr post)
    (Hfree : exists_ (like_of pid (AuthUser u)) (likes db) = false)
    (Hcontent : cb_content body = Some text) :
  let ru := AuthUser u in
  let db_liked := fst (LikeCreateView_post ru pid now db) in
  let db_commented := fst (CommentListView_post ru pid body now db) in
  exists liked made,
    DashboardView_get ru db = (db, inr (UserStats liked made)) /\
    DashboardView_get ru db_liked = (db_liked, inr (UserStats (S liked) made)) /\
    DashboardView_get ru db_commented = (db_commented, inr (UserStats liked (S made))).
Proof.
  intros ru db_liked db_commented. subst ru.
  destruct (get_object_or_404_found _ _ _ Hpost) as [_ Hpid]. apply Nat.eqb_eq in Hpid.
  pose proof Hfree as Hnone. apply exists_false_filter in Hnone.
  assert (Hl : db_liked = set_likes
                 (fun rows => rows ++ [mkLike (next_pk (map like_id (likes db))) pid
                                              (user_id u) now]) db).
  { unfold db_liked, LikeCreateView_post, LikeCreateView_perform_create, post_get_object,
      likes_filter.
    run. cbn [check_permissions has_permission is_authenticated].
    rewrite Hpost, Hpid, Hnone. reflexivity. }
  assert (Hc : db_commented = set_comments
                 (fun l => l ++ [mkComment (next_pk (map comment_id (comments db))) pid
                                           (user_id u) text now
                                           (dflt (cb_approved body) false)]) db).
  { unfold db_commented, CommentListView_post, CommentListView_perform_create,
      post_get_object, CommentSerializer_validate.
    run. cbn [check_permissions has_permission is_authenticated].
    rewrite Hcontent, Hpost, Hpid. reflexivity. }
  assert (Hdash : forall db0,
            profiles db0 = profiles db ->
            DashboardView_get (AuthUser u) db0
            = (db0, inr (UserStats
                           (count (fun l => same_user (AuthUser u) (like_user l)) (likes db0))
                           (count (fun c => same_user (AuthUser u) (comment_author c))
                                  (comments db0))))).
  { intros db0 Hp. unfold DashboardView_get. run.
    cbn [check_permissions has_permission is_authenticated].
    unfold get_profile in *. rewrite Hp, Hprofile, Hplain. reflexivity. }
  exists (count (fun l => same_user (AuthUser u) (like_user l)) (likes db)),
         (count (fun c => same_user (AuthUser u) (comment_author c)) (comments db)).
  split; [apply Hdash; reflexivity|].
  split.
  - rewrite (Hdash db_liked) by (rewrite Hl; reflexivity).
    rewrite Hl. cbn [likes comments set_likes]. unfold count.
    rewrite filter_app, length_app. cbn [filter same_user like_user].
    rewrite Nat.eqb_refl. cbn [length]. rewrite Nat.add_1_r. reflexivity.
  - rewrite (Hdash db_commented) by (rewrite Hc; reflexivity).
    rewrite Hc. cbn [likes comments set_comments]. unfold count.
    rewrite filter_app, length_app. cbn [filter same_user comment_author].
    rewrite Nat.eqb_refl. cbn [length]. rewrite Nat.add_1_r. reflexivity.
Qed.

(** On the sample store: carol has liked nothing and written nothing; a
    like makes her dashboard read one and zero. *)
Lemma dashboard_user_counts_follow_witness :
  get_profile sample_db (AuthUser carol) = inr (mkProfile 3 false) /\
  get_object_or_404 (fun p => post_id p =? 1) (posts sample_db) = inr post_hi /\
  exists_ (like_of 1 (AuthUser carol)) (likes sample_db) = false /\
  DashboardView_get (AuthUser carol) sample_db = (sample_db, inr (UserStats 0 0)) /\
  snd (DashboardView_get (AuthUser carol)
         (fst (LikeCreateView_post (AuthUser carol) 1 now0 sample_db)))
    = inr (UserStats 1 0).
Proof.
  repeat (split; [reflexivity|]).
  destruct (dashboard_user_counts_follow sample_db carol (mkProfile 3 false) 1 post_hi
              (mkCommentBody None None (Some "hello") None None) "hello" now0
              eq_refl eq_refl eq_refl eq_refl eq_refl) as [liked [made [H0 [H1 _]]]].
  assert (Hrun : DashboardView_get (AuthUser carol) sample_db
                 = (sample_db, inr (UserStats 0 0))) by reflexivity.
  rewrite Hrun in H0. injection H0 as <- <-. rewrite H1. reflexivity.
Defined.

(** ** Tokens *)

Lemma get_or_create_cases (key : string) (uid : nat) (ts : list Token) :
  let r := Token_get_or_create key uid ts in
  (fst r = ts \/ fst r = ts ++ [mkToken key uid]) /\
  (forall e, snd r = inl e -> fst r = ts).
Proof.
  unfold Token_get_or_create.
  destruct (objects_get (fun t => token_user t =? uid) ts) as [[]|t];
    try (split; [left; reflexivity | reflexivity]).
  destruct (exists_ _ ts); simpl.
  - split; [left; reflexivity | reflexivity].
  - split; [right; reflexivity | discriminate].
Qed.

(** X16: what login never does.  Whatever [authenticate] answers, login
    leaves the users, profiles and content untouched and removes no token;
    a missing or empty username or password is answered with status 400,
    and credentials that [authenticate] rejects with status 401, in both
    cases with the token table as it was. *)
Theorem login_never_harms
    (authenticate : DB -> string -> string -> option User)
    (key : string) (username password : option string) (st : AuthStore) :
  let r := UserLoginView_post authenticate key username password st in
  store_db (fst r) = store_db st /\
  incl (tokens st) (tokens (fst r)) /\
  length (tokens (fst r)) <= S (length (tokens st)) /\
  (truthy username = None \/ truthy password = None ->
   exists error, r = (st, inr (LoginBadRequest error)) /\
                 login_status (LoginBadRequest error) = 400) /\
  (forall n p, truthy username = Some n -> truthy password = Some p ->
     authenticate (store_db st) n p = None ->
     exists error, r = (st, inr (LoginUnauthorized error)) /\
                   login_status (LoginUnauthorized error) = 401).
Proof.
  intros r. unfold r, UserLoginView_post.
  assert (Hbase : store_db st = store_db st /\ incl (tokens st) (tokens st) /\
                  length (tokens st) <= S (length (tokens st))).
  { split; [reflexivity|]. split; [apply incl_refl | lia]. }
  destruct (truthy username) as [n|]; [destruct (truthy password) as [p|]|].
  - destruct (authenticate (store_db st) n p) as [user|] eqn:Hauth.
    + pose proof (get_or_create_cases key (user_id user) (tokens st)) as [Hts _].
      cbv zeta in Hts.
      destruct (Token_get_or_create key (user_id user) (tokens st)) as [ts [e|[token created]]].
      * cbn [fst] in Hts. cbn [fst store_db tokens].
        split; [reflexivity|].
        assert (Hgrow : incl (tokens st) ts /\ length ts <= S (length (tokens st))).
        { destruct Hts as [-> | ->]; [split; [apply incl_refl | lia]|].
          split; [apply incl_appl, incl_refl | rewrite length_app; simpl; lia]. }
        split; [apply Hgrow|]. split; [apply Hgrow|].
        split; [intros [H|H]; discriminate H | intros n' p' H1 H2 H3; congruence].
      * cbn [fst] in Hts.
        assert (Hgrow : incl (tokens st) ts /\ length ts <= S (length (tokens st))).
        { destruct Hts as [-> | ->]; [split; [apply incl_refl | lia]|].
          split; [apply incl_appl, incl_refl | rewrite length_app; simpl; lia]. }
        destruct (get_profile (store_db st) (AuthUser user)); cbn [fst store_db tokens].
        all: split; [reflexivity|]; split; [apply Hgrow|]; split; [apply Hgrow|].
        all: split; [intros [H|H]; discriminate H | intros n' p' H1 H2 H3; congruence].
    + cbn [fst]. split; [reflexivity|]. split; [apply incl_refl|]. split; [lia|].
      split; [intros [H|H]; discriminate H|].
      intros n' p' _ _ _. eexists. split; reflexivity.
  - cbn [fst]. split; [reflexivity|]. split; [apply incl_refl|]. split; [lia|].
    split; [intros _; eexists; split; reflexivity | intros n' p' _ H; discriminate H].
  - cbn [fst]. split; [reflexivity|]. split; [apply incl_refl|]. split; [lia|].
    split; [intros _; eexists; split; reflexivity | intros n' p' H; discriminate H].
Qed.

Lemma key_not_in_use (key : string) (ts : list Token) :
  exists_ (fun t => String.eqb (token_key t) key) ts = false ->
  ~ In key (map token_key ts).
Proof.
  intros Hex Hin. apply in_map_iff in Hin. destruct Hin as [t [Ht Hin]].
  assert (H : exists_ (fun t => String.eqb (token_key t) key) ts = true).
  { apply exists_spec. exists t. split; [exact Hin|]. apply String.eqb_eq, Ht. }
  congruence.
Qed.

Lemma no_row_for_user (uid : nat) (ts : list Token) :
  objects_get (fun t => token_user t =? uid) ts = inl DoesNotExist ->
  ~ In uid (map token_user ts).
Proof.
  unfold objects_get. intros H Hin.
  apply in_map_iff in Hin. destruct Hin as [t [Ht Hin]].
  assert (Hf : In t (filter (fun t => token_user t =? uid) ts)).
  { apply filter_In. split; [exact Hin|]. apply Nat.eqb_eq, Ht. }
  destruct (filter (fun t => token_user t =? uid) ts) as [|a [|b l]];
    [destruct Hf | discriminate H | discriminate H].
Qed.

Lemma objects_get_unique_user (uid : nat) (ts : list Token) :
  NoDup (map token_user ts) ->
  objects_get (fun t => token_user t =? uid) ts <> inl MultipleObjectsReturned.
Proof.
  intros Hnd. unfold objects_get.
  destruct (filter (fun t => token_user t =? uid) ts) as [|a [|b l]] eqn:E;
    [discriminate | discriminate |].
  exfalso.
  assert (Ha : In a (filter (fun t => token_user t =? uid) ts)) by (rewrite E; left; reflexivity).
  assert (Hb : In b (filter (fun t => token_user t =? uid) ts))
    by (rewrite E; right; left; reflexivity).
  apply filter_In in Ha, Hb. destruct Ha as [Ha Hua], Hb as [Hb Hub].
  apply Nat.eqb_eq in Hua, Hub.
  assert (Hnd' : NoDup (map token_user (filter (fun t => token_user t =? uid) ts)))
    by (apply NoDup_map_filter, Hnd).
  rewrite E in Hnd'. simpl in Hnd'. inversion Hnd' as [|x xs Hx _]; subst.
  apply Hx. left. congruence.
Qed.

(** X17: token issuance is idempotent.  Over a token table in which a user
    owns at most one token, for credentials that [authenticate] accepts, a
    user with a profile and a generated key that is not in use, login
    succeeds with the user's stored token, or with the generated key when
    the user had none; the token table keeps its shape; and a second login,
    whatever key is generated for it, answers with the same token and
    changes nothing. *)
Theorem login_issues_one_token
    (authenticate : DB -> string -> string -> option User)
    (key key' : string) (n p : string) (st : AuthStore) (user : User)
    (profile : UserProfile)
    (Hn : n <> EmptyString) (Hp : p <> EmptyString)
    (Hauth : authenticate (store_db st) n p = Some user)
    (Hprofile : get_profile (store_db st) (AuthUser user) = inr profile)
    (Hstored : In (user_id user) (map user_id (users (store_db st))))
    (Hwf : tokens_wf st)
    (Hkey : exists_ (fun t => String.eqb (token_key t) key) (tokens st) = false) :
  let r := UserLoginView_post authenticate key (Some n) (Some p) st in
  exists k,
    snd r = inr (LoginOk k user (is_blog_admin profile)) /\
    (k = key \/ In (mkToken k (user_id user)) (tokens st)) /\
    In (mkToken k (user_id user)) (tokens (fst r)) /\
    tokens_wf (fst r) /\
    UserLoginView_post authenticate key' (Some n) (Some p) (fst r)
      = (fst r, inr (LoginOk k user (is_blog_admin profile))).
Proof.
  intros r.
  assert (Htn : truthy (Some n) = Some n) by (apply truthy_some; split; [reflexivity | exact Hn]).
  assert (Htp : truthy (Some p) = Some p) by (apply truthy_some; split; [reflexivity | exact Hp]).
  destruct Hwf as [Husers [Hkeys Hrefs]].
  assert (Hhit : forall ts t key0,
            objects_get (fun t => token_user t =? user_id user) ts = inr t ->
            UserLoginView_post authenticate key0 (Some n) (Some p)
                               (mkAuthStore (store_db st) ts)
            = (mkAuthStore (store_db st) ts,
               inr (LoginOk (token_key t) user (is_blog_admin profile)))).
  { intros ts t key0 Ht. unfold UserLoginView_post. rewrite Htn, Htp.
    cbn [store_db tokens]. rewrite Hauth. unfold Token_get_or_create. rewrite Ht.
    rewrite Hprofile. reflexivity. }
  destruct (objects_get (fun t => token_user t =? user_id user) (tokens st))
    as [e|t] eqn:Hget.
  - assert (He : e = DoesNotExist).
    { pose proof (objects_get_unique_user (user_id user) (tokens st) Husers) as Hu.
      unfold objects_get in Hget, Hu |- *.
      destruct (filter _ (tokens st)) as [|a [|b l]]; congruence. }
    subst e.
    assert (Hr : r = (mkAuthStore (store_db st) (tokens st ++ [mkToken key (user_id user)]),
                      inr (LoginOk key user (is_blog_admin profile)))).
    { unfold r, UserLoginView_post. rewrite Htn, Htp, Hauth.
      unfold Token_get_or_create. rewrite Hget, Hkey, Hprofile. reflexivity. }
    exists key. rewrite Hr. cbn [fst snd tokens].
    split; [reflexivity|]. split; [left; reflexivity|].
    split; [apply in_or_app; right; left; reflexivity|].
    split.
    + unfold tokens_wf. cbn [tokens store_db]. rewrite !map_app. cbn [map token_user token_key].
      split; [apply NoDup_snoc; [exact Husers | apply no_row_for_user, Hget]|].
      split; [apply NoDup_snoc; [exact Hkeys | apply key_not_in_use, Hkey]|].
      intros t Ht. apply in_app_or in Ht. destruct Ht as [Ht|[<-|[]]].
      * apply Hrefs, Ht.
      * exact Hstored.
    + apply (Hhit _ (mkToken key (user_id user))).
      apply objects_get_inr. rewrite filter_app.
      assert (Hnone : filter (fun t => token_user t =? user_id user) (tokens st) = []).
      { unfold objects_get in Hget.
        destruct (filter _ (tokens st)) as [|a [|b l]]; [reflexivity | discriminate | discriminate]. }
      rewrite Hnone. cbn [filter token_user app]. rewrite Nat.eqb_refl. reflexivity.
  - assert (Hin : In t (tokens st) /\ token_user t = user_id user).
    { apply objects_get_inr in Hget.
      assert (H : In t (filter (fun t => token_user t =? user_id user) (tokens st)))
        by (rewrite Hget; left; reflexivity).
      apply filter_In in H. destruct H as [H1 H2]. apply Nat.eqb_eq in H2. tauto. }
    assert (Ht : mkToken (token_key t) (user_id user) = t).
    { destruct t as [k uid]. cbn [token_key token_user] in *.
      destruct Hin as [_ ->]. reflexivity. }
    assert (Hst : mkAuthStore (store_db st) (tokens st) = st) by (destruct st; reflexivity).
    assert (Hr : r = (st, inr (LoginOk (token_key t) user (is_blog_admin profile)))).
    { unfold r. rewrite <- Hst at 1. rewrite (Hhit (tokens st) t key Hget), Hst. reflexivity. }
    exists (token_key t). rewrite Hr. cbn [fst snd].
    split; [reflexivity|]. rewrite Ht.
    split; [right; apply Hin|]. split; [apply Hin|].
    split; [split; [exact Husers | split; [exact Hkeys | exact Hrefs]]|].
    rewrite <- Hst at 1. rewrite (Hhit (tokens st) t key' Hget), Hst. reflexivity.
Qed.

Lemma sample_store_tokens_wf : tokens_wf sample_store.
Proof.
  unfold tokens_wf, sample_store, sample_db. simpl.
  split; [repeat (constructor; [simpl; intuition discriminate|]); constructor|].
  split; [repeat (constructor; [simpl; intuition discriminate|]); constructor|].
  intros t [<-|[]]. simpl. tauto.
Defined.

(** On the sample store: alice has no token and is handed the generated
    key; logging in again gives the same key. *)
Lemma login_issues_one_token_witness :
  sample_authenticate (store_db sample_store) "alice" "pw-a" = Some alice /\
  get_profile (store_db sample_store) (AuthUser alice) = inr (mkProfile 1 true) /\
  tokens_wf sample_store /\
  exists_ (fun t => String.eqb (token_key t) "key-alice") (tokens sample_store) = false /\
  snd (UserLoginView_post sample_authenticate "key-alice" (Some "alice") (Some "pw-a")
         sample_store) = inr (LoginOk "key-alice" alice true) /\
  exists k,
    snd (UserLoginView_post sample_authenticate "another" (Some "alice") (Some "pw-a")
           (fst (UserLoginView_post sample_authenticate "key-alice" (Some "alice")
                   (Some "pw-a") sample_store)))
      = inr (LoginOk k alice true) /\
    snd (UserLoginView_post sample_authenticate "key-alice" (Some "alice") (Some "pw-a")
           sample_store) = inr (LoginOk k alice true).
Proof.
  split; [reflexivity|]. split; [reflexivity|]. split; [exact sample_store_tokens_wf|].
  split; [reflexivity|]. split; [reflexivity|].
  assert (Hn : "alice" <> EmptyString) by discriminate.
  assert (Hp : "pw-a" <> EmptyString) by discriminate.
  assert (Hstored : In (user_id alice) (map user_id (users (store_db sample_store))))
    by (left; reflexivity).
  destruct (login_issues_one_token sample_authenticate "key-alice" "another" "alice" "pw-a"
              sample_store alice (mkProfile 1 true) Hn Hp eq_refl eq_refl Hstored
              sample_store_tokens_wf eq_refl) as [k [H1 [_ [_ [_ H5]]]]].
  exists k. split; [rewrite H5; reflexivity | exact H1].
Defined.

Lemma filter_key_is_filter_lookup {A K} (key : A -> K) (keqb : K -> K -> bool)
    (p : A -> bool) (l : list A) (x : A) :
  (forall a b, keqb a b = true <-> a = b) ->
  NoDup (map key l) -> filter p l = [x] ->
  filter (fun y => negb (keqb (key y) (key x))) l = filter (fun y => negb (p y)) l.
Proof.
  intros Hk Hnd Hx. apply filter_ext_in. intros y Hy. f_equal.
  assert (Hxin : In x l /\ p x = true).
  { apply filter_In. rewrite Hx. left. reflexivity. }
  destruct (p y) eqn:E.
  - assert (Hin : In y (filter p l)) by (apply filter_In; split; assumption).
    rewrite Hx in Hin. destruct Hin as [<-|[]]. apply Hk. reflexivity.
  - destruct (keqb (key y) (key x)) eqn:Ek; [|reflexivity].
    apply Hk in Ek.
    assert (y = x) by (apply (NoDup_map_inj key l); tauto).
    subst y. destruct Hxin as [_ Hpx]. congruence.
Qed.

(** X18: logout deletes the caller's token and nothing else.  Over a token
    table in which users and keys are distinct, for an authenticated user
    who owns a token, logout succeeds, the table afterwards holds exactly
    the tokens of the other users, one row fewer, and a second logout finds
    no token and fails; the users, profiles and content are untouched. *)
Theorem logout_deletes_own_token (st : AuthStore) (u : User) (t : Token)
    (Hwf : tokens_wf st)
    (Ht : In t (tokens st))
    (Hu : token_user t = user_id u) :
  let r := UserLogoutView_post (AuthUser u) st in
  let others := filter (fun x => negb (token_user x =? user_id u)) (tokens st) in
  r = (mkAuthStore (store_db st) others, inr "Logged out successfully") /\
  (forall x, In x others <-> In x (tokens st) /\ token_user x <> user_id u) /\
  length others + 1 = length (tokens st) /\
  tokens_wf (fst r) /\
  UserLogoutView_post (AuthUser u) (fst r) = (fst r, inl RelatedObjectDoesNotExist).
Proof.
  intros r others. destruct Hwf as [Husers [Hkeys Hrefs]].
  assert (Hone : filter (fun x => token_user x =? user_id u) (tokens st) = [t]).
  { assert (Hin : In t (filter (fun x => token_user x =? user_id u) (tokens st))).
    { apply filter_In. split; [exact Ht | apply Nat.eqb_eq, Hu]. }
    pose proof (objects_get_unique_user (user_id u) (tokens st) Husers) as Hnot.
    unfold objects_get in Hnot.
    destruct (filter (fun x => token_user x =? user_id u) (tokens st)) as [|a [|b l]];
      [destruct Hin | | congruence].
    destruct Hin as [->|[]]. reflexivity. }
  assert (Hget : objects_get (fun x => token_user x =? user_id u) (tokens st) = inr t)
    by (apply objects_get_inr, Hone).
  assert (Hsame : filter (fun x => negb (String.eqb (token_key x) (token_key t))) (tokens st)
                  = others).
  { apply (filter_key_is_filter_lookup token_key String.eqb
             (fun x => token_user x =? user_id u) (tokens st) t String.eqb_eq Hkeys Hone). }
  assert (Hr : r = (mkAuthStore (store_db st) others, inr "Logged out successfully")).
  { unfold r, UserLogoutView_post, auth_token.
    cbn [check_permissions has_permission is_authenticated].
    rewrite Hget, Hsame. reflexivity. }
  split; [exact Hr|].
  split.
  { intros x. unfold others. rewrite filter_In, negb_true_iff, Nat.eqb_neq. tauto. }
  split.
  { pose proof (filter_length (fun x => token_user x =? user_id u) (tokens st)) as Hsplit.
    rewrite Hone in Hsplit. simpl in Hsplit. unfold others. lia. }
  rewrite Hr. cbn [fst]. split.
  { unfold tokens_wf. cbn [tokens store_db].
    split; [apply NoDup_map_filter, Husers|].
    split; [apply NoDup_map_filter, Hkeys|].
    intros x Hx. apply filter_In in Hx. apply Hrefs, Hx. }
  unfold UserLogoutView_post, auth_token.
  cbn [check_permissions has_permission is_authenticated tokens].
  assert (Hgone : objects_get (fun x => token_user x =? user_id u) others = inl DoesNotExist).
  { unfold objects_get, others.
    rewrite (filter_filter_negb (fun x => token_user x =? user_id u)). reflexivity. }
  rewrite Hgone. reflexivity.
Qed.

(** On the sample store: bob owns the only token; after his logout the
    table is empty. *)
Lemma logout_deletes_own_token_witness :
  tokens_wf sample_store /\
  In (mkToken "key-bob" 2) (tokens sample_store) /\
  token_user (mkToken "key-bob" 2) = user_id bob /\
  UserLogoutView_post (AuthUser bob) sample_store
    = (mkAuthStore sample_db [], inr "Logged out successfully").
Proof.
  split; [exact sample_store_tokens_wf|].
  assert (Hin : In (mkToken "key-bob" 2) (tokens sample_store)) by (left; reflexivity).
  split; [exact Hin|]. split; [reflexivity|].
  apply (logout_deletes_own_token sample_store bob (mkToken "key-bob" 2)
           sample_store_tokens_wf Hin eq_refl).
Defined.

Lemma get_profile_after_register (db : DB) (d : RegisterData) :
  profiles_wf db ->
  let uid := next_pk (map user_id (users db)) in
  let user := mkUser uid (dflt (rd_username d) "") (dflt (rd_first_name d) "")
                     (dflt (rd_last_name d) "") (dflt (rd_email d) "")
                     (dflt (rd_password d) "") false in
  let profile := mkProfile uid (dflt (rd_is_blog_admin d) false) in
  get_profile (set_profiles (fun l => l ++ [profile]) (set_users (fun l => l ++ [user]) db))
              (AuthUser user) = inr profile.
Proof.
  intros Hwf uid user profile. subst user profile uid.
  unfold get_profile. apply objects_get_inr.
  cbn [profiles set_profiles set_users user_id]. rewrite filter_app.
  rewrite (no_profile_for_next_pk db Hwf).
  cbn [filter profile_user app]. rewrite Nat.eqb_refl. reflexivity.
Qed.

(** X19: the token of the registration response is the login token.  Over
    a store whose profiles and tokens belong to stored users, when a
    registration succeeds and answers with a token, that token is the
    generated key, and a login of the new user, for credentials that
    [authenticate] accepts and whatever key is generated for it, answers
    with the same token and the requested admin flag and changes
    nothing. *)
Theorem register_token_is_login_token
    (authenticate : DB -> string -> string -> option User)
    (column_errors : RegisterData -> list (string * string))
    (key key' k n pw : string) (d : RegisterData) (st st1 : AuthStore) (user : User)
    (Hprofiles : profiles_wf (store_db st))
    (Hwf : tokens_wf st)
    (Hreg : UserRegisterView_post_with_token column_errors key d st
            = (st1, inr (RegisterCreated user, Some k)))
    (Hn : n <> EmptyString) (Hp : pw <> EmptyString)
    (Hauth : authenticate (store_db st1) n pw = Some user) :
  k = key /\
  In (mkToken key (user_id user)) (tokens st1) /\
  UserLoginView_post authenticate key' (Some n) (Some pw) st1
    = (st1, inr (LoginOk key user (dflt (rd_is_blog_admin d) false))).
Proof.
  destruct Hwf as [Husers [Hkeys Hrefs]].
  unfold UserRegisterView_post_with_token in Hreg.
  rewrite register_post_unfold in Hreg.
  destruct (UserRegisterSerializer_errors column_errors (store_db st) d) as [|e es];
    [|discriminate].
  cbv zeta in Hreg.
  set (uid := next_pk (map user_id (users (store_db st)))) in *.
  assert (Hnone : filter (fun t => token_user t =? uid) (tokens st) = []).
  { apply exists_false_filter. destruct (exists_ _ (tokens st)) eqn:E; [|reflexivity].
    apply exists_spec in E. destruct E as [t [Ht Heq]]. apply Nat.eqb_eq in Heq.
    apply Hrefs in Ht. rewrite Heq in Ht.
    exfalso. apply (next_pk_fresh (map user_id (users (store_db st)))). exact Ht. }
  unfold UserRegisterSerializer_get_token, Token_get_or_create, objects_get in Hreg.
  cbn [user_id] in Hreg. rewrite Hnone in Hreg.
  destruct (exists_ (fun t => String.eqb (token_key t) key) (tokens st)); [discriminate|].
  cbn [token_key] in Hreg. injection Hreg as Hst Huser Hk. subst st1 user k.
  split; [reflexivity|]. cbn [user_id tokens].
  split; [apply in_or_app; right; left; reflexivity|].
  assert (Htn : truthy (Some n) = Some n) by (apply truthy_some; split; [reflexivity | exact Hn]).
  assert (Htp : truthy (Some pw) = Some pw)
    by (apply truthy_some; split; [reflexivity | exact Hp]).
  unfold UserLoginView_post. rewrite Htn, Htp. cbn [store_db tokens] in *. rewrite Hauth.
  unfold Token_get_or_create, objects_get. cbn [user_id].
  rewrite filter_app, Hnone. cbn [filter token_user app]. rewrite Nat.eqb_refl.
  pose proof (get_profile_after_register (store_db st) d Hprofiles) as Hprof.
  cbv zeta in Hprof. unfold uid in *. cbn [user_id] in *.
  rewrite Hprof. reflexivity.
Qed.

(** On the sample store: "dora" registers with the generated key
    "key-dora" and logs in with it. *)
Lemma register_token_is_login_token_witness :
  profiles_wf (store_db sample_store) /\
  tokens_wf sample_store /\
  snd (UserRegisterView_post_with_token no_column_errors "key-dora"
         (mkRegisterData (Some "dora") (Some "pw-d") (Some "dora@example.org")
                         (Some "Dora") (Some "Dee") None) sample_store)
    = inr (RegisterCreated (mkUser 4 "dora" "Dora" "Dee" "dora@example.org" "pw-d" false),
           Some "key-dora") /\
  snd (UserLoginView_post sample_authenticate "unused" (Some "dora") (Some "pw-d")
         (fst (UserRegisterView_post_with_token no_column_errors "key-dora"
                 (mkRegisterData (Some "dora") (Some "pw-d") (Some "dora@example.org")
                                 (Some "Dora") (Some "Dee") None) sample_store)))
    = inr (LoginOk "key-dora"
                   (mkUser 4 "dora" "Dora" "Dee" "dora@example.org" "pw-d" false) false).
Proof.
  split; [exact sample_db_profiles_wf|]. split; [exact sample_store_tokens_wf|].
  split; [reflexivity|].
  assert (Hn : "dora" <> EmptyString) by discriminate.
  assert (Hp : "pw-d" <> EmptyString) by discriminate.
  destruct (register_token_is_login_token sample_authenticate no_column_errors
              "key-dora" "unused" "key-dora" "dora" "pw-d"
              (mkRegisterData (Some "dora") (Some "pw-d") (Some "dora@example.org")
                              (Some "Dora") (Some "Dee") None)
              sample_store
              (fst (UserRegisterView_post_with_token no_column_errors "key-dora"
                      (mkRegisterData (Some "dora") (Some "pw-d") (Some "dora@example.org")
                                      (Some "Dora") (Some "Dee") None) sample_store))
              (mkUser 4 "dora" "Dora" "Dee" "dora@example.org" "pw-d" false)
              sample_db_profiles_wf sample_store_tokens_wf eq_refl Hn Hp eq_refl)
    as [_ [_ H]].
  rewrite H. reflexivity.
Defined.

(** ** Roles, missing rows and locality *)

(** X20: the role is reported the same everywhere: for credentials that
    [authenticate] accepts and a user with a profile, the flag in the
    login response, the flag of the current-user view and the branch of
    the dashboard (the admin's counts or the user's) all follow the
    profile's [is_blog_admin]. *)
Theorem role_is_reported_consistently
    (authenticate : DB -> string -> string -> option User)
    (key n p : string) (st : AuthStore) (user : User) (profile : UserProfile)
    (Hn : n <> EmptyString) (Hp : p <> EmptyString)
    (Hauth : authenticate (store_db st) n p = Some user)
    (Hprofile : get_profile (store_db st) (AuthUser user) = inr profile) :
  let db := store_db st in
  CurrentUserView_get (AuthUser user) db = (db, inr (user, is_blog_admin profile)) /\
  (forall token u flag,
     snd (UserLoginView_post authenticate key (Some n) (Some p) st)
       = inr (LoginOk token u flag) ->
     u = user /\ flag = is_blog_admin profile) /\
  (exists stats,
     DashboardView_get (AuthUser user) db = (db, inr stats) /\
     match stats with
     | AdminStats _ _ _ _ => is_blog_admin profile = true
     | UserStats _ _ => is_blog_admin profile = false
     end).
Proof.
  intros db. subst db.
  split.
  { unfold CurrentUserView_get. run.
    cbn [check_permissions has_permission is_authenticated].
    rewrite Hprofile. reflexivity. }
  split.
  { intros token u flag.
    assert (Htn : truthy (Some n) = Some n)
      by (apply truthy_some; split; [reflexivity | exact Hn]).
    assert (Htp : truthy (Some p) = Some p)
      by (apply truthy_some; split; [reflexivity | exact Hp]).
    unfold UserLoginView_post. rewrite Htn, Htp, Hauth.
    destruct (Token_get_or_create key (user_id user) (tokens st)) as [ts [e|[t created]]];
      [discriminate|].
    rewrite Hprofile. cbn [snd]. intros H. injection H as _ <- <-. split; reflexivity. }
  unfold DashboardView_get. run.
  cbn [check_permissions has_permission is_authenticated].
  rewrite Hprofile. destruct (is_blog_admin profile); eexists; split; reflexivity.
Qed.

(** On the sample store: alice is reported as admin by the current-user
    view. *)
Lemma role_is_reported_consistently_witness :
  sample_authenticate (store_db sample_store) "alice" "pw-a" = Some alice /\
  get_profile (store_db sample_store) (AuthUser alice) = inr (mkProfile 1 true) /\
  CurrentUserView_get (AuthUser alice) sample_db = (sample_db, inr (alice, true)).
Proof.
  split; [reflexivity|]. split; [reflexivity|].
  assert (Hn : "alice" <> EmptyString) by discriminate.
  assert (Hp : "pw-a" <> EmptyString) by discriminate.
  apply (role_is_reported_consistently sample_authenticate "key-alice" "alice" "pw-a"
           sample_store alice (mkProfile 1 true) Hn Hp eq_refl eq_refl).
Defined.

(** X21: a post that is not stored is not found: for an authenticated
    caller and a primary key that no post carries, liking, unliking,
    commenting with a valid body, updating and deleting the post all fail
    with [Http404] and leave the store as it was. *)
Theorem missing_post_is_not_found (post_invalid : bool -> PostData -> option string)
    (limit : nat) (db : DB) (u : User) (m : Method) (pid : nat)
    (d : PostData) (body : CommentBody) (text : string) (now : Z)
    (Hm : is_write_method m = true)
    (Hmissing : filter (fun p => post_id p =? pid) (posts db) = [])
    (Hcontent : cb_content body = Some text) :
  let ru := AuthUser u in
  LikeCreateView_post ru pid now db = (db, inl Http404) /\
  LikeDeleteView_delete ru pid db = (db, inl Http404) /\
  CommentListView_post ru pid body now db = (db, inl Http404) /\
  BlogPostDetailView_update post_invalid limit m ru pid d now db = (db, inl Http404) /\
  BlogPostDetailView_destroy limit ru pid db = (db, inl Http404).
Proof.
  intros ru. subst ru.
  pose proof (get_object_or_404_missing _ _ Hmissing) as H404.
  assert (Hperm : forall m', is_write_method m' = true ->
            BlogPostDetailView_get_permissions limit m' (AuthUser u) pid db
            = (db, inl Http404)).
  { intros m' Hm'. destruct limit; cbn [BlogPostDetailView_get_permissions];
      rewrite Hm'; unfold post_get_object; run; rewrite H404; reflexivity. }
  unfold LikeCreateView_post, LikeCreateView_perform_create, LikeDeleteView_delete,
    LikeDeleteView_get_object, CommentListView_post, CommentListView_perform_create,
    BlogPostDetailView_update, BlogPostDetailView_destroy, BlogPostDetailView_initial,
    CommentSerializer_validate, post_get_object.
  rewrite Hcontent. unfold bind.
  rewrite (Hperm m Hm), (Hperm DELETE eq_refl). run.
  cbn [check_permissions has_permission is_authenticated].
  rewrite H404. repeat split.
Qed.

(** On the sample store no post has the key 9. *)
Lemma missing_post_is_not_found_witness :
  is_write_method PUT = true /\
  filter (fun p => post_id p =? 9) (posts sample_db) = [] /\
  LikeCreateView_post (AuthUser bob) 9 now0 sample_db = (sample_db, inl Http404) /\
  BlogPostDetailView_update no_post_errors 1000 PUT (AuthUser bob) 9
      (mkPostData None None None None None None) now0 sample_db
    = (sample_db, inl Http404).
Proof.
  split; [reflexivity|]. split; [reflexivity|].
  pose proof (missing_post_is_not_found no_post_errors 1000 sample_db bob PUT 9
                (mkPostData None None None None None None)
                (mkCommentBody None None (Some "x") None None) "x" now0
                eq_refl eq_refl eq_refl) as H.
  split; apply H.
Defined.

Lemma filter_update_other {A} (p g : A -> bool) (c c' : A) (l : list A) :
  filter p l = [c] -> g c = false -> g c' = false ->
  filter g (map (fun x => if p x then c' else x) l) = filter g l.
Proof.
  intros Hl Hc Hc'. induction l as [|x l IH]; simpl in *; [reflexivity|].
  destruct (p x) eqn:E.
  - injection Hl as -> Hl. rewrite Hc, Hc'.
    rewrite (filter_nil_update p c' l Hl). reflexivity.
  - rewrite (IH Hl). reflexivity.
Qed.

(** X22: approval is local: when an admin approves a stored comment, the
    users, profiles, categories, posts and likes are untouched, the number
    of comments is unchanged, and for every other post the listing and the
    [comments_count] are what they were. *)
Theorem approval_is_local (db : DB) (u : User) (profile : UserProfile) (pk : nat)
    (c : Comment) (Q : BlogPost)
    (Hprofile : get_profile db (AuthUser u) = inr profile)
    (Hadmin : is_blog_admin profile = true)
    (Hc : get_object_or_404 (fun x => comment_id x =? pk) (comments db) = inr c)
    (HQ : post_id Q <> comment_post c) :
  let db1 := fst (ApproveCommentView_dispatch (AuthUser u) pk db) in
  (users db1 = users db /\ profiles db1 = profiles db /\ categories db1 = categories db /\
   posts db1 = posts db /\ likes db1 = likes db) /\
  length (comments db1) = length (comments db) /\
  CommentListView_get_queryset (post_id Q) db1 = CommentListView_get_queryset (post_id Q) db /\
  get_comments_count db1 Q = get_comments_count db Q.
Proof.
  intros db1.
  pose proof Hc as Hfilter. apply get_object_or_404_inr in Hfilter.
  destruct (get_object_or_404_found _ _ _ Hc) as [_ Hpk]. apply Nat.eqb_eq in Hpk.
  assert (H1 : db1 = set_comments
                 (map (fun x => if comment_id x =? pk then set_approved c else x)) db).
  { unfold db1, ApproveCommentView_dispatch, ApproveCommentView_patch, comment_get_object.
    run. cbn [check_permissions has_permission is_authenticated].
    rewrite Hprofile, Hadmin. cbn [negb]. rewrite Hc. cbn [set_approved comment_id fst].
    rewrite Hpk. reflexivity. }
  assert (Hother : filter (fun x => (comment_post x =? post_id Q) && approved x)
                     (comments db1)
                   = filter (fun x => (comment_post x =? post_id Q) && approved x)
                            (comments db)).
  { rewrite H1. cbn [comments set_comments].
    apply filter_update_other with (c := c); [exact Hfilter| |].
    - apply andb_false_iff. left. apply Nat.eqb_neq. congruence.
    - cbn [set_approved comment_post]. apply andb_false_iff. left.
      apply Nat.eqb_neq. congruence. }
  split; [rewrite H1; repeat split|].
  split; [rewrite H1; apply length_map|].
  split.
  - unfold CommentListView_get_queryset. rewrite Hother. reflexivity.
  - unfold get_comments_count, count. rewrite Hother. reflexivity.
Qed.

(** On the sample store: alice approves the pending comment of her first
    post; her draft still counts no comment. *)
Lemma approval_is_local_witness :
  get_profile sample_db (AuthUser alice) = inr (mkProfile 1 true) /\
  get_object_or_404 (fun x => comment_id x =? 1) (comments sample_db) = inr comment_pending /\
  post_id post_draft <> comment_post comment_pending /\
  get_comments_count (fst (ApproveCommentView_dispatch (AuthUser alice) 1 sample_db))
                     post_draft = 0.
Proof.
  split; [reflexivity|]. split; [reflexivity|].
  assert (HQ : post_id post_draft <> comment_post comment_pending) by discriminate.
  split; [exact HQ|].
  apply (approval_is_local sample_db alice (mkProfile 1 true) 1 comment_pending post_draft
           eq_refl eq_refl eq_refl HQ).
Defined.
